(** * The AsyncAPI document compiler of [asyncapi/docs.py]

    A shallow embedding of [spec_asjson], [set_operation_message] and
    [_spec_asjson], and the properties of the compiled document.

    Python values are the inductive [value]; a [dict] is an association
    list in insertion order with one binding per key; exceptions are the
    [Raise] results of the [result] monad; the in-place updates of the
    document tree are written as read, update, write back. *)

From Stdlib Require Import Ascii NArith ZArith.
From stdpp Require Import base option list strings gmap.

(** ** Exceptions and results *)

Inductive exn : Type :=
| KeyError (key : string)
| TypeError
| AttributeError
| SchemaGenerationError.

Inductive result (A : Type) : Type :=
| Ok (a : A)
| Raise (e : exn).

Arguments Ok {A} a.
Arguments Raise {A} e.

Global Instance result_ret : MRet result := fun A a => Ok a.

Global Instance result_bind : MBind result := fun A B f m =>
  match m with
  | Ok a => f a
  | Raise e => Raise e
  end.

(** ** Insertion-ordered dictionaries *)

Section Dict.
Context {A : Type}.

(** [d.get(k)]; [k in d] is [is_Some (dict_get k d)]. *)
Fixpoint dict_get (k : string) (d : list (string * A)) : option A :=
  match d with
  | [] => None
  | (k', v) :: d' => if decide (k = k') then Some v else dict_get k d'
  end.

(** [d[k] = v]: an existing key keeps its position, a new key goes last. *)
Fixpoint dict_set (k : string) (v : A) (d : list (string * A))
  : list (string * A) :=
  match d with
  | [] => [(k, v)]
  | (k', v') :: d' =>
      if decide (k = k') then (k, v) :: d' else (k', v') :: dict_set k v d'
  end.

(** [d.pop(k, None)], for the dictionary that is left. *)
Fixpoint dict_pop (k : string) (d : list (string * A)) : list (string * A) :=
  match d with
  | [] => []
  | (k', v) :: d' => if decide (k = k') then d' else (k', v) :: dict_pop k d'
  end.

Definition dict_keys (d : list (string * A)) : list string := d.*1.

Definition dict_values (d : list (string * A)) : list A := d.*2.

Definition dict_mem (k : string) (d : list (string * A)) : bool :=
  bool_decide (is_Some (dict_get k d)).
End Dict.

(** ** Field names *)

Definition upper (c : ascii) : ascii :=
  let n := N_of_ascii c in
  if ((97 <=? n) && (n <=? 122))%N then ascii_of_N (n - 32) else c.

Fixpoint camel_from (capitalize : bool) (s : string) : string :=
  match s with
  | EmptyString => EmptyString
  | String c s' =>
      if Ascii.eqb c "_"%char then camel_from true s'
      else String (if capitalize then upper c else c) (camel_from false s')
  end.

(** Modelled from the spec: [as_camel_case] of
    [asyncapi.specification_v2_0_0], which is imported by [docs.py] and not
    part of the sources.  The segments between underscores are joined, the
    first one unchanged and each later one with its first letter in upper
    case. *)
Definition as_camel_case (name : string) : string := camel_from false name.

Section Model.

(** The payload type descriptors: the classes given as [Message.payload]. *)
Variable descriptor : Type.

(** ** Python values *)

#[warnings="-register-all"] Inductive value : Type :=
| VNone
| VBool (b : bool)
| VInt (n : Z)
| VStr (s : string)
| VEnum (underlying : value)
| VList (items : list value)
| VDict (items : list (string * value))
| VData (fields : list (string * value))
| VType (t : descriptor)
| VSet (elements : list value).

(** [VEnum v] is an enumeration member whose [.value] is [v].
    [VDict items] is a [dict] whose keys are strings, as the mappings of a
    specification are; a [dict] with a key of another type is not among
    these values.
    [VData fields] is an object for which [dataclasses.is_dataclass]
    holds: [fields] lists [dataclasses.fields] in declaration order, each
    name with what [getattr(obj, name, None)] gives.  [VType t] is a class
    that is not a dataclass.
    [VSet elements] is a [set]: [elements] lists its members in the order
    in which the running process iterates over it.  That order is not part
    of the set: for a set of strings it follows the hash seed of the
    process, so another run may list the same set in another order. *)

(** [type_as_jsonschema] of [asyncapi.schema]: a JSON schema, or the
    exception it raises. *)
Variable type_as_jsonschema : descriptor -> result value.

(** The reflective view of a class: [Some fields] for a dataclass type,
    each field with its class-level default if any, else [None]. *)
Variable class_fields : descriptor -> option (list (string * value)).

(** ** Subscripts and methods on values *)

(** [v[k]] *)
Definition getitem (v : value) (k : string) : result value :=
  match v with
  | VDict d =>
      match dict_get k d with
      | Some x => Ok x
      | None => Raise (KeyError k)
      end
  | _ => Raise TypeError
  end.

(** [v[k] = x] *)
Definition setitem (v : value) (k : string) (x : value) : result value :=
  match v with
  | VDict d => Ok (VDict (dict_set k x d))
  | _ => Raise TypeError
  end.

(** [v.pop(k, None)], the value [v] after the call *)
Definition pop (v : value) (k : string) : result value :=
  match v with
  | VDict d => Ok (VDict (dict_pop k d))
  | VList _ | VSet _ => Raise TypeError
  | _ => Raise AttributeError
  end.

(** [v.items()] *)
Definition items_of (v : value) : result (list (string * value)) :=
  match v with
  | VDict d => Ok d
  | _ => Raise AttributeError
  end.

(** ** The generic serializer *)

(** [field_value is not None and field_value != ''] *)
Definition kept (field_value : value) : bool :=
  match field_value with
  | VNone => false
  | VStr s => negb (String.eqb s "")
  | _ => true
  end.

(** The loop over [dataclasses.fields], from the dictionary built so far. *)
Definition fields_asjson (asjson : value -> value) :=
  fix loop (fields : list (string * value))
           (json_value : list (string * value)) : list (string * value) :=
    match fields with
    | [] => json_value
    | (name, x) :: fields' =>
        let field_value := asjson x in
        loop fields'
             (if kept field_value
              then dict_set (as_camel_case name) field_value json_value
              else json_value)
    end.

(** The dictionary comprehension [{k: _spec_asjson(v) for k, v in ...}]. *)
Definition dict_asjson (asjson : value -> value) :=
  fix loop (items : list (string * value))
           (json_value : list (string * value)) : list (string * value) :=
    match items with
    | [] => json_value
    | (k, v) :: items' => loop items' (dict_set k (asjson v) json_value)
    end.

Fixpoint _spec_asjson (generic_value : value) : value :=
  match generic_value with
  | VData fields => VDict (fields_asjson _spec_asjson fields [])
  | VDict items => VDict (dict_asjson _spec_asjson items [])
  | VList items => VList (map _spec_asjson items)
  | VSet elements => VList (map _spec_asjson elements)
  | VEnum underlying => underlying
  | _ => generic_value
  end.

(** ** The specification classes *)

(** Modelled from the spec: the dataclasses [Message], [Operation],
    [Channel], [Server], [Components] and [Specification] of the [asyncapi]
    package, which [docs.py] imports and which are not part of the sources.
    Each record has the attributes the compiler reads; [*_attrs] holds the
    remaining dataclass fields, by name, in declaration order. *)
Record Message : Type := {
  Message_name : option string;
  Message_content_type : option string;
  Message_payload : option descriptor;
  Message_attrs : list (string * value)
}.

Record Operation : Type := {
  Operation_message : option Message;
  Operation_attrs : list (string * value)
}.

Record Channel : Type := {
  Channel_name : string;
  Channel_subscribe : option Operation;
  Channel_publish : option Operation;
  Channel_attrs : list (string * value)
}.

Record Server : Type := {
  Server_name : string;
  Server_attrs : list (string * value)
}.

Record Components : Type := {
  Components_messages : option (list (string * Message));
  Components_schemas : option (list (string * value));
  Components_attrs : list (string * value)
}.

Record Specification : Type := {
  Specification_servers : list (string * Server);
  Specification_channels : list (string * Channel);
  Specification_components : option Components;
  Specification_attrs : list (string * value)
}.

(** *** The objects as the serializer sees them *)

Definition optional {A : Type} (f : A -> value) (o : option A) : value :=
  match o with
  | Some a => f a
  | None => VNone
  end.

Definition mapping {A : Type} (f : A -> value) (d : list (string * A))
  : value :=
  VDict (map (fun kv => (kv.1, f kv.2)) d).

Definition class_value (t : descriptor) : value :=
  match class_fields t with
  | Some fields => VData fields
  | None => VType t
  end.

Definition message_value (m : Message) : value :=
  VData ([("name", optional VStr (Message_name m));
          ("content_type", optional VStr (Message_content_type m));
          ("payload", optional class_value (Message_payload m))]
         ++ Message_attrs m).

Definition operation_value (o : Operation) : value :=
  VData (("message", optional message_value (Operation_message o))
         :: Operation_attrs o).

Definition channel_value (c : Channel) : value :=
  VData ([("name", VStr (Channel_name c));
          ("subscribe", optional operation_value (Channel_subscribe c));
          ("publish", optional operation_value (Channel_publish c))]
         ++ Channel_attrs c).

Definition server_value (s : Server) : value :=
  VData (("name", VStr (Server_name s)) :: Server_attrs s).

Definition components_value (c : Components) : value :=
  VData ([("messages", optional (mapping message_value)
                         (Components_messages c));
          ("schemas", optional VDict (Components_schemas c))]
         ++ Components_attrs c).

Definition spec_value (spec : Specification) : value :=
  VData ([("servers", mapping server_value (Specification_servers spec));
          ("channels", mapping channel_value (Specification_channels spec));
          ("components", optional components_value (Specification_components spec))]
         ++ Specification_attrs spec).

(** ** The compiler *)

(** Truth value of an [Optional[str]]. *)
Definition nonempty (name : option string) : option string :=
  match name with
  | Some n => if String.eqb n "" then None else Some n
  | None => None
  end.

Definition reference (key : string) : value :=
  VDict [("$ref", VStr ("#/components/messages/" +:+ key))].

Definition set_operation_message (operation_dict : value)
    (operation : option Operation) (json_spec_messages : gmap string string)
  : result value :=
  message ← getitem operation_dict "message";
  message ← pop message "contentType";
  operation_dict ← setitem operation_dict "message" message;
  let by_name :=
    operation ← operation;
    message ← Operation_message operation;
    name ← nonempty (Message_name message);
    json_spec_messages !! name in
  match by_name with
  | Some key => setitem operation_dict "message" (reference key)
  | None =>
      let payload :=
        operation ← operation;
        message ← Operation_message operation;
        Message_payload message in
      match payload with
      | Some t =>
          schema ← type_as_jsonschema t;
          message ← getitem operation_dict "message";
          message ← setitem message "payload" schema;
          setitem operation_dict "message" message
      | None => Ok operation_dict
      end
  end.

(** [json_spec['components']['messages'][message_name]['payload'] = schema] *)
Definition set_component_payload (json_spec : value) (message_name : string)
    (schema : value) : result value :=
  components ← getitem json_spec "components";
  messages ← getitem components "messages";
  message ← getitem messages message_name;
  message ← setitem message "payload" schema;
  messages ← setitem messages message_name message;
  components ← setitem components "messages" messages;
  setitem json_spec "components" components.

(** The loop over [spec_messages_dict.items()], on the document and the
    name to key map. *)
Fixpoint messages_loop (items : list (string * Message)) (json_spec : value)
    (json_spec_messages : gmap string string)
  : result (value * gmap string string) :=
  match items with
  | [] => Ok (json_spec, json_spec_messages)
  | (message_name, message_type) :: items' =>
      match Message_payload message_type with
      | Some t =>
          schema ← type_as_jsonschema t;
          json_spec ← set_component_payload json_spec message_name schema;
          messages_loop items' json_spec
            match nonempty (Message_name message_type) with
            | Some name => <[name := message_name]> json_spec_messages
            | None => json_spec_messages
            end
      | None => messages_loop items' json_spec json_spec_messages
      end
  end.

(** The loop over [json_spec['servers'].values()]. *)
Fixpoint servers_loop (servers : list (string * value))
  : result (list (string * value)) :=
  match servers with
  | [] => Ok []
  | (k, server) :: servers' =>
      server ← pop server "name";
      servers' ← servers_loop servers';
      Ok ((k, server) :: servers')
  end.

Definition channel_operation (key : string) (operation : option Operation)
    (json_spec_messages : gmap string string) (channel_dict : value)
  : result value :=
  match channel_dict with
  | VDict d =>
      if dict_mem key d then
        operation_dict ← getitem channel_dict key;
        operation_dict ←
          set_operation_message operation_dict operation json_spec_messages;
        setitem channel_dict key operation_dict
      else Ok channel_dict
  | _ => Raise TypeError
  end.

Definition channel_step (channel_dict : value) (channel : Channel)
    (json_spec_messages : gmap string string) : result value :=
  channel_dict ← pop channel_dict "name";
  channel_dict ←
    channel_operation "subscribe" (Channel_subscribe channel)
      json_spec_messages channel_dict;
  channel_operation "publish" (Channel_publish channel)
    json_spec_messages channel_dict.

(** The loop over [zip(json_spec['channels'].values(),
    spec.channels.values())]; [zip] stops at the shorter of the two and
    the entries after that are left as they are. *)
Fixpoint channels_loop (channel_dicts : list (string * value))
    (channels : list (string * Channel))
    (json_spec_messages : gmap string string)
  : result (list (string * value)) :=
  match channel_dicts, channels with
  | (k, channel_dict) :: channel_dicts', (_, channel) :: channels' =>
      channel_dict ← channel_step channel_dict channel json_spec_messages;
      channel_dicts' ←
        channels_loop channel_dicts' channels' json_spec_messages;
      Ok ((k, channel_dict) :: channel_dicts')
  | _, _ => Ok channel_dicts
  end.

Definition spec_messages_dict (spec : Specification)
  : list (string * Message) :=
  match Specification_components spec with
  | Some components =>
      match Components_messages components with
      | Some messages => messages
      | None => []
      end
  | None => []
  end.

Definition spec_asjson (spec : Specification) : result value :=
  let json_spec := _spec_asjson (spec_value spec) in
  '(json_spec, json_spec_messages) ←
    messages_loop (spec_messages_dict spec) json_spec ∅;
  servers ← getitem json_spec "servers";
  servers ← items_of servers;
  servers ← servers_loop servers;
  json_spec ← setitem json_spec "servers" (VDict servers);
  channels ← getitem json_spec "channels";
  channel_dicts ← items_of channels;
  channel_dicts ←
    channels_loop channel_dicts (Specification_channels spec) json_spec_messages;
  setitem json_spec "channels" (VDict channel_dicts).

End Model.

Arguments VNone {descriptor}.
Arguments VBool {descriptor} b.
Arguments VInt {descriptor} n.
Arguments VStr {descriptor} s.
Arguments VEnum {descriptor} underlying.
Arguments VList {descriptor} items.
Arguments VDict {descriptor} items.
Arguments VData {descriptor} fields.
Arguments VType {descriptor} t.
Arguments VSet {descriptor} elements.
Arguments getitem {descriptor} v k.
Arguments setitem {descriptor} v k x.
Arguments pop {descriptor} v k.
Arguments items_of {descriptor} v.
Arguments kept {descriptor} field_value.
Arguments fields_asjson {descriptor} asjson fields json_value.
Arguments dict_asjson {descriptor} asjson items json_value.
Arguments _spec_asjson {descriptor} generic_value.
Arguments Build_Message {descriptor}.
Arguments Message_name {descriptor} m.
Arguments Message_content_type {descriptor} m.
Arguments Message_payload {descriptor} m.
Arguments Message_attrs {descriptor} m.
Arguments Build_Operation {descriptor}.
Arguments Operation_message {descriptor} o.
Arguments Operation_attrs {descriptor} o.
Arguments Build_Channel {descriptor}.
Arguments Channel_name {descriptor} c.
Arguments Channel_subscribe {descriptor} c.
Arguments Channel_publish {descriptor} c.
Arguments Channel_attrs {descriptor} c.
Arguments Build_Server {descriptor}.
Arguments Server_name {descriptor} s.
Arguments Server_attrs {descriptor} s.
Arguments Build_Components {descriptor}.
Arguments Components_messages {descriptor} c.
Arguments Components_schemas {descriptor} c.
Arguments Components_attrs {descriptor} c.
Arguments Build_Specification {descriptor}.
Arguments Specification_servers {descriptor} s.
Arguments Specification_channels {descriptor} s.
Arguments Specification_components {descriptor} s.
Arguments Specification_attrs {descriptor} s.
Arguments optional {descriptor A} f o.
Arguments mapping {descriptor A} f d.
Arguments class_value {descriptor} class_fields t.
Arguments message_value {descriptor} class_fields m.
Arguments operation_value {descriptor} class_fields o.
Arguments channel_value {descriptor} class_fields c.
Arguments server_value {descriptor} s.
Arguments components_value {descriptor} class_fields c.
Arguments spec_value {descriptor} class_fields spec.
Arguments reference {descriptor} key.
Arguments set_operation_message {descriptor} type_as_jsonschema
  operation_dict operation json_spec_messages.
Arguments set_component_payload {descriptor} json_spec message_name schema.
Arguments messages_loop {descriptor} type_as_jsonschema
  items json_spec json_spec_messages.
Arguments servers_loop {descriptor} servers.
Arguments channel_operation {descriptor} type_as_jsonschema
  key operation json_spec_messages channel_dict.
Arguments channel_step {descriptor} type_as_jsonschema
  channel_dict channel json_spec_messages.
Arguments channels_loop {descriptor} type_as_jsonschema
  channel_dicts channels json_spec_messages.
Arguments spec_messages_dict {descriptor} spec.
Arguments spec_asjson {descriptor} type_as_jsonschema class_fields spec.

(** ** Sample specifications *)

Module Sample.

(** Classes are named; [Unsupported] has no JSON schema, [OrderCreated] is
    a dataclass with one field without default. *)
Definition schema (t : string) : result (value string) :=
  if decide (t = "Unsupported") then Raise SchemaGenerationError
  else Ok (VDict [("type", VStr "object"); ("title", VStr t)]).

Definition dataclass (t : string) : option (list (string * value string)) :=
  if decide (t = "OrderCreated") then Some [("order_id", VNone)] else None.

Definition compile : Specification string -> result (value string) :=
  spec_asjson schema dataclass.

Definition message (name : option string) (content_type : option string)
    (payload : option string) : Message string :=
  {| Message_name := name;
     Message_content_type := content_type;
     Message_payload := payload;
     Message_attrs := [("title", VNone); ("summary", VStr "")] |}.

Definition operation (m : option (Message string)) : Operation string :=
  {| Operation_message := m;
     Operation_attrs := [("operation_id", VNone)] |}.

Definition channel (name : string) (subscribe publish : option (Operation string))
  : Channel string :=
  {| Channel_name := name;
     Channel_subscribe := subscribe;
     Channel_publish := publish;
     Channel_attrs := [("description", VNone)] |}.

Definition server : Server string :=
  {| Server_name := "development";
     Server_attrs := [("url", VStr "localhost"); ("protocol", VEnum (VStr "kafka"))] |}.

Definition specification (channels : list (string * Channel string))
    (messages : option (list (string * Message string)))
  : Specification string :=
  {| Specification_servers := [("development", server)];
     Specification_channels := channels;
     Specification_components :=
       Some {| Components_messages := messages;
               Components_schemas := None;
               Components_attrs := [] |};
     Specification_attrs := [("asyncapi", VStr "2.0.0")] |}.

Definition order_created : Message string :=
  message (Some "OrderCreated") None (Some "OrderCreated").

(** The end-to-end scenario: the published message is a shared one. *)
Definition orders : Specification string :=
  specification [("orders", channel "orders" None (Some (operation (Some order_created))))]
    (Some [("order-created", order_created)]).

Definition orders_document : value string :=
  VDict
    [("servers",
      VDict [("development",
              VDict [("url", VStr "localhost"); ("protocol", VStr "kafka")])]);
     ("channels",
      VDict [("orders",
              VDict [("publish",
                      VDict [("message",
                              VDict [("$ref",
                                      VStr "#/components/messages/order-created")])])])]);
     ("components",
      VDict [("messages",
              VDict [("order-created",
                      VDict [("name", VStr "OrderCreated");
                             ("payload",
                              VDict [("type", VStr "object");
                                     ("title", VStr "OrderCreated")])])])]);
     ("asyncapi", VStr "2.0.0")].

(** A shared message that declares a name and no payload. *)
Definition order_named : Message string :=
  message (Some "OrderCreated") None None.

Definition orders_without_payload : Specification string :=
  specification [("orders", channel "orders" None (Some (operation (Some order_named))))]
    (Some [("order-created", order_named)]).

(** Two entries of the components table with one declared name. *)
Definition orders_twice : Specification string :=
  specification [("orders", channel "orders" None (Some (operation (Some order_created))))]
    (Some [("first", order_created); ("second", order_created)]).

(** An operation without message. *)
Definition orders_silent : Specification string :=
  specification [("orders", channel "orders" (Some (operation None)) None)] None.

(** A message of its own, with a content type. *)
Definition order_inline : Message string :=
  message None (Some "application/json") (Some "OrderCreated").

Definition orders_inline : Specification string :=
  specification [("orders", channel "orders" (Some (operation (Some order_inline))) None)]
    None.

(** The fields of a record with null, empty and zero values. *)
Definition binding_fields : list (string * value string) :=
  [("content_type", VStr ""); ("max_size", VInt 0); ("title", VNone);
   ("is_secure", VBool false); ("tags", VList []); ("bindings", VDict [])].

(** A mapping with null and empty values. *)
Definition variables : list (string * value string) :=
  [("port", VNone); ("host", VStr ""); ("retries", VInt 3)].

End Sample.

(** ** Vocabulary of the properties *)

(** The document keys of the fields of a dataclass. *)
Definition document_keys {A : Type} (fields : list (string * A)) : list string :=
  as_camel_case <$> fields.*1.

(** The value of the last field written under [k], if any is. *)
Fixpoint last_kept {descriptor : Type}
    (asjson : value descriptor -> value descriptor) (k : string)
    (fields : list (string * value descriptor)) : option (value descriptor) :=
  match fields with
  | [] => None
  | (name, x) :: fields' =>
      match last_kept asjson k fields' with
      | Some y => Some y
      | None =>
          if decide (as_camel_case name = k) then
            if kept (asjson x) then Some (asjson x) else None
          else None
      end
  end.

(** The sub-document at a path of keys. *)
Fixpoint at_path {descriptor : Type} (path : list string)
    (v : value descriptor) : option (value descriptor) :=
  match path with
  | [] => Some v
  | k :: path' =>
      match v with
      | VDict d => dict_get k d ≫= at_path path'
      | _ => None
      end
  end.

(** The dictionary under a value. *)
Definition dict_of {descriptor : Type} (v : value descriptor)
  : list (string * value descriptor) :=
  match v with
  | VDict d => d
  | _ => []
  end.

Definition is_Ok {A : Type} (r : result A) : Prop :=
  match r with
  | Ok _ => True
  | Raise _ => False
  end.

(** *** Well-formed specifications *)

Definition identifier_char (c : ascii) : bool :=
  let n := N_of_ascii c in
  (((48 <=? n) && (n <=? 57)) || ((65 <=? n) && (n <=? 90))
   || ((97 <=? n) && (n <=? 122)) || (n =? 95))%N.

(** The characters a Python identifier is made of. *)
Fixpoint identifier (s : string) : bool :=
  match s with
  | EmptyString => true
  | String c s' => identifier_char c && identifier s'
  end.

(** The fields of a dataclass, the ones the compiler reads and the others,
    have pairwise distinct document keys. *)
Definition distinct_keys {A : Type} (known : list string)
    (attrs : list (string * A)) : Prop :=
  NoDup (as_camel_case <$> (known ++ attrs.*1)).

Section WellFormed.
Context {descriptor : Type}.

Definition wf_message (m : Message descriptor) : Prop :=
  distinct_keys ["name"; "content_type"; "payload"] (Message_attrs m)
  /\ Forall (fun kv => identifier kv.1 = true) (Message_attrs m).

Definition wf_operation (o : Operation descriptor) : Prop :=
  distinct_keys ["message"] (Operation_attrs o)
  /\ from_option wf_message True (Operation_message o).

Definition wf_channel (c : Channel descriptor) : Prop :=
  distinct_keys ["name"; "subscribe"; "publish"] (Channel_attrs c)
  /\ from_option wf_operation True (Channel_subscribe c)
  /\ from_option wf_operation True (Channel_publish c).

Definition wf_components (c : Components descriptor) : Prop :=
  distinct_keys ["messages"; "schemas"] (Components_attrs c)
  /\ from_option (fun messages => NoDup messages.*1) True
       (Components_messages c).

(** Dictionaries have one entry per key, and the fields of every dataclass
    have distinct document keys. *)
Definition wf_spec (spec : Specification descriptor) : Prop :=
  distinct_keys ["servers"; "channels"; "components"]
    (Specification_attrs spec)
  /\ NoDup (Specification_servers spec).*1
  /\ NoDup (Specification_channels spec).*1
  /\ Forall (fun kc => wf_channel kc.2) (Specification_channels spec)
  /\ from_option wf_components True (Specification_components spec).

(** *** Operations, messages and payloads of a specification *)

Definition channel_operations (c : Channel descriptor)
  : list (string * option (Operation descriptor)) :=
  [("subscribe", Channel_subscribe c); ("publish", Channel_publish c)].

Definition spec_operations (spec : Specification descriptor)
  : list (Operation descriptor) :=
  (Specification_channels spec).*2 ≫=
    (fun c => omap id [Channel_subscribe c; Channel_publish c]).

Definition spec_payloads (spec : Specification descriptor) : list descriptor :=
  omap Message_payload
    ((spec_messages_dict spec).*2
     ++ omap Operation_message (spec_operations spec)).

(** Every operation of every channel has a message. *)
Definition messages_present (spec : Specification descriptor) : Prop :=
  Forall (fun o => is_Some (Operation_message o)) (spec_operations spec).

(** The key of the last entry of the components table, among those with a
    payload, that declares the name [name]. *)
Fixpoint last_declared (name : string)
    (items : list (string * Message descriptor)) : option string :=
  match items with
  | [] => None
  | (message_name, message_type) :: items' =>
      match last_declared name items' with
      | Some key => Some key
      | None =>
          if bool_decide (is_Some (Message_payload message_type)
                          /\ nonempty (Message_name message_type) = Some name)
          then Some message_name
          else None
      end
  end.

(** The server entries without their names. *)
Definition compiled_servers (servers : list (string * Server descriptor))
  : list (string * value descriptor) :=
  (fun ks => (ks.1, VDict (dict_pop "name"
                             (dict_of (_spec_asjson (server_value ks.2))))))
    <$> servers.

(** *** The compiled channels, in one traversal *)

Variable type_as_jsonschema : descriptor -> result (value descriptor).
Variable class_fields : descriptor -> option (list (string * value descriptor)).

Definition schemas_defined (spec : Specification descriptor) : Prop :=
  Forall (fun t => is_Ok (type_as_jsonschema t)) (spec_payloads spec).

Definition compiled_message (json_spec_messages : gmap string string)
    (m : Message descriptor) : result (value descriptor) :=
  let serialized :=
    dict_pop "contentType"
      (dict_of (_spec_asjson (message_value class_fields m))) in
  match nonempty (Message_name m) ≫= (json_spec_messages !!.) with
  | Some key => Ok (reference key)
  | None =>
      match Message_payload m with
      | Some t =>
          schema ← type_as_jsonschema t;
          Ok (VDict (dict_set "payload" schema serialized))
      | None => Ok (VDict serialized)
      end
  end.

Definition compiled_operation (json_spec_messages : gmap string string)
    (o : Operation descriptor) : result (value descriptor) :=
  match Operation_message o with
  | Some m =>
      message ← compiled_message json_spec_messages m;
      Ok (VDict (dict_set "message" message
                   (dict_of (_spec_asjson (operation_value class_fields o)))))
  | None => Raise (KeyError "message")
  end.

Definition put_operation (json_spec_messages : gmap string string)
    (key : string) (o : option (Operation descriptor))
    (d : list (string * value descriptor))
  : result (list (string * value descriptor)) :=
  match o with
  | Some o =>
      operation_dict ← compiled_operation json_spec_messages o;
      Ok (dict_set key operation_dict d)
  | None => Ok d
  end.

Definition compiled_channel (json_spec_messages : gmap string string)
    (c : Channel descriptor) : result (value descriptor) :=
  d ← put_operation json_spec_messages "subscribe" (Channel_subscribe c)
        (dict_pop "name"
           (dict_of (_spec_asjson (channel_value class_fields c))));
  d ← put_operation json_spec_messages "publish" (Channel_publish c) d;
  Ok (VDict d).

Fixpoint compiled_channels (json_spec_messages : gmap string string)
    (channels : list (string * Channel descriptor))
  : result (list (string * value descriptor)) :=
  match channels with
  | [] => Ok []
  | (k, c) :: channels' =>
      channel_dict ← compiled_channel json_spec_messages c;
      channel_dicts ← compiled_channels json_spec_messages channels';
      Ok ((k, channel_dict) :: channel_dicts)
  end.

End WellFormed.

(** ** Vocabulary of the further properties *)

(** The fields of a record that the serializer keeps, under their document
    keys. *)
Definition kept_fields {descriptor : Type}
    (asjson : value descriptor -> value descriptor)
    (fields : list (string * value descriptor))
  : list (string * value descriptor) :=
  omap (fun field =>
          if kept (asjson field.2)
          then Some (as_camel_case field.1, asjson field.2)
          else None) fields.

(** A document value: mappings from strings with one entry per key,
    sequences, scalars and classes, with no dataclass, no enumeration
    member and no set left. *)
Fixpoint document {descriptor : Type} (v : value descriptor) : Prop :=
  match v with
  | VEnum _ | VData _ | VSet _ => False
  | VList items =>
      (fix all (l : list (value descriptor)) : Prop :=
         match l with
         | [] => True
         | x :: l' => document x /\ all l'
         end) items
  | VDict items =>
      NoDup items.*1
      /\ (fix all (l : list (string * value descriptor)) : Prop :=
            match l with
            | [] => True
            | entry :: l' => document entry.2 /\ all l'
            end) items
  | _ => True
  end.

(** A value as Python has it: a dict has one entry per key, and the value
    of an enumeration member is a document value.  Its dicts are keyed by
    strings, as those of every [value] are. *)
Fixpoint python_value {descriptor : Type} (v : value descriptor) : Prop :=
  match v with
  | VEnum underlying => document underlying
  | VList items =>
      (fix all (l : list (value descriptor)) : Prop :=
         match l with
         | [] => True
         | x :: l' => python_value x /\ all l'
         end) items
  | VSet elements =>
      (fix all (l : list (value descriptor)) : Prop :=
         match l with
         | [] => True
         | x :: l' => python_value x /\ all l'
         end) elements
  | VDict items =>
      NoDup items.*1
      /\ (fix all (l : list (string * value descriptor)) : Prop :=
            match l with
            | [] => True
            | entry :: l' => python_value entry.2 /\ all l'
            end) items
  | VData fields =>
      (fix all (l : list (string * value descriptor)) : Prop :=
         match l with
         | [] => True
         | field :: l' => python_value field.2 /\ all l'
         end) fields
  | _ => True
  end.

(** JSON data: a document value without classes. *)
Fixpoint json {descriptor : Type} (v : value descriptor) : Prop :=
  match v with
  | VEnum _ | VData _ | VType _ | VSet _ => False
  | VList items =>
      (fix all (l : list (value descriptor)) : Prop :=
         match l with
         | [] => True
         | x :: l' => json x /\ all l'
         end) items
  | VDict items =>
      NoDup items.*1
      /\ (fix all (l : list (string * value descriptor)) : Prop :=
            match l with
            | [] => True
            | entry :: l' => json entry.2 /\ all l'
            end) items
  | _ => True
  end.

(** A Python value without classes whose enumeration members have JSON
    data as values.  Its dicts are keyed by strings, as those of every
    [value] are. *)
Fixpoint plain {descriptor : Type} (v : value descriptor) : Prop :=
  match v with
  | VEnum underlying => json underlying
  | VType _ => False
  | VList items =>
      (fix all (l : list (value descriptor)) : Prop :=
         match l with
         | [] => True
         | x :: l' => plain x /\ all l'
         end) items
  | VSet elements =>
      (fix all (l : list (value descriptor)) : Prop :=
         match l with
         | [] => True
         | x :: l' => plain x /\ all l'
         end) elements
  | VDict items =>
      NoDup items.*1
      /\ (fix all (l : list (string * value descriptor)) : Prop :=
            match l with
            | [] => True
            | entry :: l' => plain entry.2 /\ all l'
            end) items
  | VData fields =>
      (fix all (l : list (string * value descriptor)) : Prop :=
         match l with
         | [] => True
         | field :: l' => plain field.2 /\ all l'
         end) fields
  | _ => True
  end.

Section Plain.
Context {descriptor : Type}.

Definition plain_fields (fields : list (string * value descriptor)) : Prop :=
  Forall (fun field => plain field.2) fields.

Definition plain_message (m : Message descriptor) : Prop :=
  plain_fields (Message_attrs m).

Definition plain_operation (o : Operation descriptor) : Prop :=
  plain_fields (Operation_attrs o)
  /\ from_option plain_message True (Operation_message o).

Definition plain_channel (c : Channel descriptor) : Prop :=
  plain_fields (Channel_attrs c)
  /\ from_option plain_operation True (Channel_subscribe c)
  /\ from_option plain_operation True (Channel_publish c).

Definition plain_components (c : Components descriptor) : Prop :=
  plain_fields (Components_attrs c)
  /\ from_option (fun schemas => plain (VDict schemas)) True
       (Components_schemas c)
  /\ from_option (Forall (fun km => plain_message km.2)) True
       (Components_messages c).

(** The payloads apart, the specification holds no class, and the values
    of its enumeration members are JSON data. *)
Definition plain_spec (spec : Specification descriptor) : Prop :=
  plain_fields (Specification_attrs spec)
  /\ Forall (fun ks => plain_fields (Server_attrs ks.2))
       (Specification_servers spec)
  /\ Forall (fun kc => plain_channel kc.2) (Specification_channels spec)
  /\ from_option plain_components True (Specification_components spec).

End Plain.

Section Unnamed.
Context {descriptor : Type}.

(** The specification with the internal names of its servers and channels
    blanked. *)
Definition unnamed_server (s : Server descriptor) : Server descriptor :=
  {| Server_name := ""; Server_attrs := Server_attrs s |}.

Definition unnamed_channel (c : Channel descriptor) : Channel descriptor :=
  {| Channel_name := "";
     Channel_subscribe := Channel_subscribe c;
     Channel_publish := Channel_publish c;
     Channel_attrs := Channel_attrs c |}.

Definition unnamed (spec : Specification descriptor)
  : Specification descriptor :=
  {| Specification_servers :=
       (fun ks => (ks.1, unnamed_server ks.2)) <$> Specification_servers spec;
     Specification_channels :=
       (fun kc => (kc.1, unnamed_channel kc.2))
         <$> Specification_channels spec;
     Specification_components := Specification_components spec;
     Specification_attrs := Specification_attrs spec |}.

(** The fields of every server have distinct document keys. *)
Definition wf_servers (spec : Specification descriptor) : Prop :=
  Forall (fun ks => distinct_keys ["name"] (Server_attrs ks.2))
    (Specification_servers spec).

End Unnamed.

Section Compilable.
Context {descriptor : Type}.
Variable type_as_jsonschema : descriptor -> result (value descriptor).

(** The key that the components table gives the declared name of a
    message, if it gives one. *)
Definition resolved (spec : Specification descriptor)
    (m : Message descriptor) : option string :=
  nonempty (Message_name m)
    ≫= (fun name => last_declared name (spec_messages_dict spec)).

(** Every payload of the components table has a schema, every operation has
    a message, and the payload of a message that is not resolved by name has
    a schema. *)
Definition compilable (spec : Specification descriptor) : Prop :=
  Forall (fun t => is_Ok (type_as_jsonschema t))
    (omap Message_payload (spec_messages_dict spec).*2)
  /\ Forall (fun o =>
               exists m,
                 Operation_message o = Some m
                 /\ forall t, resolved spec m = None ->
                      Message_payload m = Some t ->
                      is_Ok (type_as_jsonschema t))
       (spec_operations spec).

End Compilable.

(** ** Two runs of the compiler *)



Section Runs.
Context {descriptor : Type}.














End Runs.

(** ** Sample values of the further properties *)

Module Cases.

(** A record with an enumeration member, a mapping with a null value and
    a sequence of records. *)
Definition binding : value string :=
  VData [("name", VStr "development");
         ("protocol", VEnum (VStr "kafka"));
         ("protocol_version", VNone);
         ("variables", VDict [("port", VNone); ("host", VStr "")]);
         ("tags", VList [VData [("name", VStr "internal");
                                ("description", VStr "")];
                         VNone])].

Definition binding_document : value string :=
  VDict [("name", VStr "development");
         ("protocol", VStr "kafka");
         ("variables", VDict [("port", VNone); ("host", VStr "")]);
         ("tags", VList [VDict [("name", VStr "internal")]; VNone])].

(** The end-to-end scenario with other internal names. *)
Definition orders_renamed : Specification string :=
  {| Specification_servers :=
       [("development",
         {| Server_name := "local";
            Server_attrs := Server_attrs Sample.server |})];
     Specification_channels :=
       [("orders",
         Sample.channel "order-events" None
           (Some (Sample.operation (Some Sample.order_created))))];
     Specification_components := Specification_components Sample.orders;
     Specification_attrs := Specification_attrs Sample.orders |}.

(** Two fields of a record with one document key. *)
Definition colliding_fields : list (string * value string) :=
  [("content_type", VStr "application/json"); ("contentType", VNone)].





End Cases.

(** Well-formedness and membership on a given specification, by
    computation. *)
Ltac solve_wf :=
  repeat first [split | apply Forall_cons_2 | apply Forall_nil_2];
  try done; compute_done.

(** ** Dictionaries *)

Section DictFacts.
Context {A : Type}.
Implicit Types (k : string) (v : A) (d : list (string * A)).

Lemma dict_get_None k d : dict_get k d = None <-> k ∉ d.*1.
Proof.
  induction d as [|[k' v'] d IH]; csimpl.
  - split; [intros _; apply not_elem_of_nil | done].
  - rewrite not_elem_of_cons, <- IH. case_decide; [|tauto].
    split; [done | by intros [? _]].
Qed.

Lemma dict_get_Some_elem k v d : dict_get k d = Some v -> (k, v) ∈ d.
Proof.
  induction d as [|[k' v'] d IH]; csimpl; [done|].
  case_decide as E.
  - intros [= ->]. subst. left.
  - intros H. right. auto.
Qed.

Lemma dict_get_elem k v d : NoDup d.*1 -> (k, v) ∈ d -> dict_get k d = Some v.
Proof.
  induction d as [|[k' v'] d IH]; csimpl.
  - intros _ H. by apply elem_of_nil in H.
  - intros [Hk Hd]%NoDup_cons [E | H]%elem_of_cons.
    + injection E as -> ->. by rewrite decide_True.
    + rewrite decide_False; [auto|].
      intros ->. apply Hk. by apply (list_elem_of_fmap_2 fst _ (k', v)).
Qed.

Lemma dict_get_set k k' v d :
  dict_get k' (dict_set k v d) = if decide (k' = k) then Some v else dict_get k' d.
Proof.
  induction d as [|[k0 v0] d IH]; csimpl.
  - done.
  - destruct (decide (k = k0)) as [->|]; csimpl.
    + by repeat case_decide.
    + rewrite IH. by repeat case_decide; simplify_eq.
Qed.

Lemma dict_get_set_eq k v d : dict_get k (dict_set k v d) = Some v.
Proof. by rewrite dict_get_set, decide_True. Qed.

Lemma dict_get_set_ne k k' v d :
  k' <> k -> dict_get k' (dict_set k v d) = dict_get k' d.
Proof. intros. by rewrite dict_get_set, decide_False. Qed.

Lemma dict_set_fresh k v d : k ∉ d.*1 -> dict_set k v d = d ++ [(k, v)].
Proof.
  induction d as [|[k' v'] d IH]; csimpl; [done|].
  intros [? ?]%not_elem_of_cons. rewrite decide_False by done. by rewrite IH.
Qed.

Lemma dict_set_set k v v' d : dict_set k v' (dict_set k v d) = dict_set k v' d.
Proof.
  induction d as [|[k' v0] d IH]; csimpl.
  - by rewrite decide_True.
  - case_decide; csimpl.
    + by rewrite decide_True.
    + rewrite decide_False by done. by rewrite IH.
Qed.

Lemma dict_set_keys_present k v d : k ∈ d.*1 -> (dict_set k v d).*1 = d.*1.
Proof.
  induction d as [|[k' v'] d IH]; csimpl.
  - intros H. by apply elem_of_nil in H.
  - intros H. case_decide; csimpl; [by subst|].
    apply elem_of_cons in H as [|]; [done|]. by rewrite IH.
Qed.

Lemma dict_set_keys k v d :
  (dict_set k v d).*1 = if decide (k ∈ d.*1) then d.*1 else d.*1 ++ [k].
Proof.
  case_decide.
  - by apply dict_set_keys_present.
  - rewrite dict_set_fresh by done. by rewrite fmap_app.
Qed.

Lemma dict_set_NoDup k v d : NoDup d.*1 -> NoDup (dict_set k v d).*1.
Proof.
  intros Hd. rewrite dict_set_keys. case_decide; [done|].
  apply NoDup_app. split_and!; [done| |apply NoDup_singleton].
  intros x Hx ->%list_elem_of_singleton. done.
Qed.

Lemma dict_pop_keys_subset k k' d : k' ∈ (dict_pop k d).*1 -> k' ∈ d.*1.
Proof.
  induction d as [|[k0 v0] d IH]; csimpl; [done|].
  case_decide; csimpl.
  - by right.
  - intros [->|]%elem_of_cons; [left | right; auto].
Qed.

Lemma dict_pop_NoDup k d : NoDup d.*1 -> NoDup (dict_pop k d).*1.
Proof.
  induction d as [|[k0 v0] d IH]; csimpl; [done|].
  intros [Hk Hd]%NoDup_cons. case_decide; csimpl; [done|].
  apply NoDup_cons. split; [|auto].
  intros H'. by apply Hk, (dict_pop_keys_subset k).
Qed.

Lemma dict_get_pop_ne k k' d :
  k' <> k -> dict_get k' (dict_pop k d) = dict_get k' d.
Proof.
  intros Hne. induction d as [|[k0 v0] d IH]; csimpl; [done|].
  destruct (decide (k = k0)) as [->|]; csimpl.
  - by rewrite decide_False.
  - by rewrite IH.
Qed.

Lemma dict_get_pop_eq k d : NoDup d.*1 -> dict_get k (dict_pop k d) = None.
Proof.
  induction d as [|[k0 v0] d IH]; csimpl; [done|].
  intros [Hk Hd]%NoDup_cons. destruct (decide (k = k0)) as [->|]; csimpl.
  - by apply dict_get_None.
  - rewrite decide_False by done. auto.
Qed.

Lemma dict_mem_true k d : dict_mem k d = true <-> is_Some (dict_get k d).
Proof. unfold dict_mem. by rewrite bool_decide_eq_true. Qed.

Lemma dict_mem_false k d : dict_mem k d = false <-> dict_get k d = None.
Proof.
  unfold dict_mem. rewrite bool_decide_eq_false.
  by rewrite eq_None_not_Some.
Qed.

End DictFacts.

(** ** The generic serializer *)

Section SerializerFacts.
Context {descriptor : Type}.
Implicit Types (asjson : value descriptor -> value descriptor).
Implicit Types (fields items json_value : list (string * value descriptor)).

Lemma fields_asjson_app asjson fields fields' json_value :
  fields_asjson asjson (fields ++ fields') json_value
  = fields_asjson asjson fields' (fields_asjson asjson fields json_value).
Proof.
  revert json_value.
  induction fields as [|[name x] fields IH]; intros json_value; [done|].
  csimpl. apply IH.
Qed.

Lemma fields_asjson_get asjson k fields json_value :
  dict_get k (fields_asjson asjson fields json_value)
  = match last_kept asjson k fields with
    | Some y => Some y
    | None => dict_get k json_value
    end.
Proof.
  revert json_value.
  induction fields as [|[name x] fields IH]; intros json_value; [done|].
  csimpl. rewrite IH. destruct (last_kept asjson k fields); [done|].
  destruct (kept (asjson x)) eqn:Hk.
  - rewrite dict_get_set. repeat case_decide; congruence.
  - by case_decide.
Qed.

Lemma fields_asjson_NoDup asjson fields json_value :
  NoDup json_value.*1 -> NoDup (fields_asjson asjson fields json_value).*1.
Proof.
  revert json_value.
  induction fields as [|[name x] fields IH]; intros json_value H; [done|].
  csimpl. apply IH. destruct (kept (asjson x)); [|done].
  by apply dict_set_NoDup.
Qed.

Lemma last_kept_None asjson k fields :
  k ∉ document_keys fields -> last_kept asjson k fields = None.
Proof.
  unfold document_keys.
  induction fields as [|[name x] fields IH]; csimpl; [done|].
  intros [Hne Hk]%not_elem_of_cons. rewrite IH by done.
  by rewrite decide_False.
Qed.

Lemma last_kept_distinct asjson name x fields :
  NoDup (document_keys fields) -> (name, x) ∈ fields ->
  last_kept asjson (as_camel_case name) fields
  = if kept (asjson x) then Some (asjson x) else None.
Proof.
  unfold document_keys.
  induction fields as [|[name' x'] fields IH]; csimpl.
  - intros _ H. by apply elem_of_nil in H.
  - intros [Hk Hd]%NoDup_cons [E | H]%elem_of_cons.
    + injection E as -> ->.
      rewrite last_kept_None by done. by rewrite decide_True.
    + rewrite IH by done.
      destruct (kept (asjson x)); [done|].
      rewrite decide_False; [done|].
      intros E. apply Hk. rewrite E.
      apply list_elem_of_fmap_2.
      by apply (list_elem_of_fmap_2 fst _ (name, x)).
Qed.

Lemma last_kept_inv asjson k y fields :
  last_kept asjson k fields = Some y ->
  exists name x,
    (name, x) ∈ fields /\ as_camel_case name = k /\ y = asjson x
    /\ kept y = true.
Proof.
  induction fields as [|[name x] fields IH]; csimpl; [done|].
  destruct (last_kept asjson k fields) as [y'|].
  - intros [= ->]. destruct IH as (n & x0 & ? & ? & ? & ?); [done|].
    exists n, x0. split_and!; [by right|done..].
  - case_decide; [|done]. destruct (kept (asjson x)) eqn:Hk; [|done].
    intros [= <-]. exists name, x. split_and!; [left|done..].
Qed.

Lemma dict_asjson_distinct asjson items json_value :
  NoDup (json_value.*1 ++ items.*1) ->
  dict_asjson asjson items json_value
  = json_value ++ ((fun kv => (kv.1, asjson kv.2)) <$> items).
Proof.
  revert json_value.
  induction items as [|[k v] items IH]; intros json_value; csimpl.
  - intros _. by rewrite app_nil_r.
  - intros H. apply NoDup_app in H as (Hj & Hdisj & [Hk Hi]%NoDup_cons).
    rewrite dict_set_fresh.
    + rewrite IH.
      * by rewrite <- app_assoc.
      * rewrite fmap_app. csimpl. rewrite <- app_assoc. csimpl.
        apply NoDup_app. split_and!; [done| |by apply NoDup_cons].
        intros x Hx [->|Hx']%elem_of_cons.
        -- by apply (Hdisj _ Hx); left.
        -- by apply (Hdisj _ Hx); right.
    + intros Hin. by apply (Hdisj _ Hin); left.
Qed.

Lemma mapping_asjson {A : Type} (f : A -> value descriptor)
    (d : list (string * A)) :
  NoDup d.*1 ->
  _spec_asjson (mapping f d)
  = VDict ((fun kv => (kv.1, _spec_asjson (f kv.2))) <$> d).
Proof.
  intros H. unfold mapping. cbn [_spec_asjson].
  rewrite dict_asjson_distinct.
  - csimpl. f_equal. rewrite <- list_fmap_compose. done.
  - csimpl. rewrite <- list_fmap_compose. done.
Qed.

Lemma kept_dict items : kept (VDict items) = true.
Proof. done. Qed.

(** Induction on a value, through the collections in it. *)
Lemma value_nested_ind (P : value descriptor -> Prop) :
  P VNone -> (forall b, P (VBool b)) -> (forall n, P (VInt n)) ->
  (forall s, P (VStr s)) -> (forall u, P u -> P (VEnum u)) ->
  (forall l, Forall P l -> P (VList l)) ->
  (forall items, Forall (fun entry => P entry.2) items -> P (VDict items)) ->
  (forall fields, Forall (fun field => P field.2) fields -> P (VData fields)) ->
  (forall t, P (VType t)) ->
  (forall elements, Forall P elements -> P (VSet elements)) ->
  forall v, P v.
Proof.
  intros HNone HBool HInt HStr HEnum HList HDict HData HType HSet.
  fix IH 1. intros [|b|n|s|u|l|items|fields|t|elements].
  - exact HNone.
  - apply HBool.
  - apply HInt.
  - apply HStr.
  - apply HEnum, IH.
  - apply HList. induction l as [|x l IHl]; constructor; [apply IH|apply IHl].
  - apply HDict.
    induction items as [|[k x] l IHl]; constructor; [apply IH|apply IHl].
  - apply HData.
    induction fields as [|[k x] l IHl]; constructor; [apply IH|apply IHl].
  - apply HType.
  - apply HSet.
    induction elements as [|x l IHl]; constructor; [apply IH|apply IHl].
Qed.

End SerializerFacts.

(** ** Field names *)

Example as_camel_case_fields :
  as_camel_case "content_type" = "contentType"
  /\ as_camel_case "snake_case_name" = "snakeCaseName"
  /\ as_camel_case "name" = "name"
  /\ as_camel_case "contentType" = "contentType".
Proof. by vm_compute. Qed.

Lemma identifier_upper c : identifier_char c = true -> identifier_char (upper c) = true.
Proof.
  destruct c as [[] [] [] [] [] [] [] []]; vm_compute; congruence.
Qed.

Lemma identifier_camel_from capitalize s :
  identifier s = true -> identifier (camel_from capitalize s) = true.
Proof.
  revert capitalize. induction s as [|c s IH]; intros capitalize; [done|].
  cbn [identifier camel_from].
  intros [Hc Hs]%andb_prop. destruct (Ascii.eqb c "_"); [by apply IH|].
  cbn [identifier]. rewrite IH by done.
  destruct capitalize; [rewrite identifier_upper by done | rewrite Hc]; done.
Qed.

Lemma identifier_not_ref name : identifier name = true -> as_camel_case name <> "$ref".
Proof.
  intros H E. apply (identifier_camel_from false) in H.
  unfold as_camel_case in E. rewrite E in H. by vm_compute in H.
Qed.

(** ** The compiler *)

Section CompilerFacts.
Context {descriptor : Type}.
Variable type_as_jsonschema : descriptor -> result (value descriptor).
Variable class_fields : descriptor -> option (list (string * value descriptor)).
Implicit Types (m : Message descriptor) (o : Operation descriptor).
Implicit Types (c : Channel descriptor) (spec : Specification descriptor).
Implicit Types (reg : gmap string string).

Lemma record_get (asjson : value descriptor -> value descriptor)
    fields k name x :
  as_camel_case name = k ->
  NoDup (document_keys fields) -> (name, x) ∈ fields ->
  dict_get k (fields_asjson asjson fields [])
  = if kept (asjson x) then Some (asjson x) else None.
Proof.
  intros <- Hd Hin. rewrite fields_asjson_get.
  rewrite (last_kept_distinct _ name x) by done.
  by destruct (kept (asjson x)).
Qed.

Lemma record_keys (asjson : value descriptor -> value descriptor) fields k :
  k ∈ (fields_asjson asjson fields []).*1 -> k ∈ document_keys fields.
Proof.
  intros Hk. destruct (decide (k ∈ document_keys fields)) as [|Hn]; [done|].
  apply (last_kept_None asjson) in Hn.
  pose proof (fields_asjson_get asjson k fields []) as E.
  rewrite Hn in E. csimpl in E. by apply dict_get_None in E.
Qed.

Lemma class_value_kept t : kept (_spec_asjson (class_value class_fields t)) = true.
Proof. unfold class_value. by destruct (class_fields t). Qed.

Lemma message_asjson m :
  _spec_asjson (message_value class_fields m)
  = VDict (dict_of (_spec_asjson (message_value class_fields m))).
Proof. done. Qed.

Lemma operation_asjson o :
  _spec_asjson (operation_value class_fields o)
  = VDict (dict_of (_spec_asjson (operation_value class_fields o))).
Proof. done. Qed.

Lemma channel_asjson c :
  _spec_asjson (channel_value class_fields c)
  = VDict (dict_of (_spec_asjson (channel_value class_fields c))).
Proof. done. Qed.

Lemma operation_message_get o :
  wf_operation o ->
  dict_get "message" (dict_of (_spec_asjson (operation_value class_fields o)))
  = (fun m => _spec_asjson (message_value class_fields m))
      <$> Operation_message o.
Proof.
  intros [Hd _]. unfold operation_value. cbn [_spec_asjson dict_of].
  erewrite (record_get _ _ _ "message"); [|reflexivity|exact Hd|left].
  by destruct (Operation_message o).
Qed.

Lemma set_operation_message_eq o reg :
  wf_operation o ->
  set_operation_message type_as_jsonschema
    (_spec_asjson (operation_value class_fields o)) (Some o) reg
  = compiled_operation type_as_jsonschema class_fields reg o.
Proof.
  intros Hwf. pose proof (operation_message_get o Hwf) as Hget.
  unfold set_operation_message, compiled_operation, compiled_message.
  rewrite operation_asjson. cbn [getitem dict_of mbind option_bind].
  rewrite Hget. clear Hget.
  generalize (dict_of (_spec_asjson (operation_value class_fields o))).
  intros od. destruct (Operation_message o) as [m|]; [|done].
  cbn [fmap option_fmap option_map mbind result_bind option_bind].
  rewrite message_asjson.
  generalize (dict_of (_spec_asjson (message_value class_fields m))).
  intros md. cbn [pop setitem mbind result_bind option_bind].
  destruct (nonempty (Message_name m) ≫= _) as [key|] eqn:Hkey.
  - cbn. by rewrite dict_set_set.
  - destruct (Message_payload m) as [t|]; [|done].
    destruct (type_as_jsonschema t) as [schema|e]; [|done].
    cbn. rewrite dict_get_set_eq. cbn. by rewrite dict_set_set.
Qed.

Lemma channel_gets c :
  wf_channel c ->
  dict_get "subscribe" (dict_of (_spec_asjson (channel_value class_fields c)))
  = (fun o => _spec_asjson (operation_value class_fields o))
      <$> Channel_subscribe c
  /\ dict_get "publish"
       (dict_of (_spec_asjson (channel_value class_fields c)))
     = (fun o => _spec_asjson (operation_value class_fields o))
         <$> Channel_publish c.
Proof.
  intros [Hd _]. unfold channel_value. cbn [_spec_asjson dict_of]. split.
  - erewrite (record_get _ _ _ "subscribe");
      [|reflexivity|exact Hd|right; left].
    by destruct (Channel_subscribe c).
  - erewrite (record_get _ _ _ "publish");
      [|reflexivity|exact Hd|right; right; left].
    by destruct (Channel_publish c).
Qed.

Lemma channel_NoDup c :
  NoDup (dict_of (_spec_asjson (channel_value class_fields c))).*1.
Proof.
  unfold channel_value. cbn [_spec_asjson dict_of].
  apply fields_asjson_NoDup, NoDup_nil_2.
Qed.

Lemma put_operation_get reg key k (o : option (Operation descriptor)) d d' :
  put_operation type_as_jsonschema class_fields reg key o d = Ok d' ->
  k <> key -> dict_get k d' = dict_get k d.
Proof.
  unfold put_operation. destruct o as [o|].
  - destruct (compiled_operation _ _ _ _); [|done].
    intros [= <-] ?. by apply dict_get_set_ne.
  - by intros [= <-].
Qed.

Lemma channel_operation_eq key (o : option (Operation descriptor)) reg d :
  dict_get key d
  = (fun o => _spec_asjson (operation_value class_fields o)) <$> o ->
  from_option wf_operation True o ->
  channel_operation type_as_jsonschema key o reg (VDict d)
  = d' ← put_operation type_as_jsonschema class_fields reg key o d;
    Ok (VDict d').
Proof.
  intros Hget Hwf. unfold channel_operation, put_operation.
  destruct o as [o|]; cbn [fmap option_fmap option_map from_option] in Hget, Hwf.
  - rewrite (proj2 (dict_mem_true key d)) by (rewrite Hget; eauto).
    cbn [getitem]. rewrite Hget. cbn [mbind result_bind].
    rewrite set_operation_message_eq by done.
    by destruct (compiled_operation _ _ _ _).
  - by rewrite (proj2 (dict_mem_false key d)).
Qed.

Lemma channel_step_eq c reg :
  wf_channel c ->
  channel_step type_as_jsonschema
    (_spec_asjson (channel_value class_fields c)) c reg
  = compiled_channel type_as_jsonschema class_fields reg c.
Proof.
  intros Hwf. destruct (channel_gets c Hwf) as [Hs Hp].
  destruct Hwf as (_ & Hws & Hwp).
  unfold channel_step, compiled_channel. rewrite channel_asjson.
  cbn [pop dict_of mbind result_bind].
  revert Hs Hp.
  generalize (dict_of (_spec_asjson (channel_value class_fields c))).
  intros d Hs Hp.
  rewrite (channel_operation_eq "subscribe"); [|by rewrite dict_get_pop_ne|done].
  destruct (put_operation _ _ _ "subscribe" _ _) as [d1|e] eqn:E1; [|done].
  cbn [mbind result_bind].
  rewrite (channel_operation_eq "publish"); [done| |done].
  rewrite (put_operation_get _ _ _ _ _ _ E1) by done.
  by rewrite dict_get_pop_ne.
Qed.

Lemma channels_loop_eq (channels : list (string * Channel descriptor)) reg :
  Forall (fun kc => wf_channel kc.2) channels ->
  channels_loop type_as_jsonschema
    ((fun kc => (kc.1, _spec_asjson (channel_value class_fields kc.2)))
       <$> channels) channels reg
  = compiled_channels type_as_jsonschema class_fields reg channels.
Proof.
  induction 1 as [|[k c] channels Hc _ IH]; [done|].
  rewrite fmap_cons. cbn [channels_loop compiled_channels fst snd].
  rewrite channel_step_eq by done.
  destruct (compiled_channel _ _ _ _); [|done].
  cbn [mbind result_bind]. by rewrite IH.
Qed.

Lemma servers_loop_eq (servers : list (string * Server descriptor)) :
  servers_loop
    ((fun ks => (ks.1, _spec_asjson (server_value ks.2))) <$> servers)
  = Ok (compiled_servers servers).
Proof.
  unfold compiled_servers.
  induction servers as [|[k s] servers IH]; [done|].
  rewrite !fmap_cons. cbn [servers_loop fst snd]. rewrite IH.
  by change (_spec_asjson (server_value s))
    with (VDict (dict_of (_spec_asjson (server_value s)))).
Qed.

Lemma set_component_payload_inv d message_name schema
    (json_spec : value descriptor) :
  set_component_payload (VDict d) message_name schema = Ok json_spec ->
  exists components, json_spec = VDict (dict_set "components" components d).
Proof.
  unfold set_component_payload. cbn [getitem setitem mbind result_bind].
  destruct (dict_get "components" d) as [components|]; [|done].
  cbn [mbind result_bind].
  destruct (getitem components "messages") as [messages|]; [|done].
  cbn [mbind result_bind].
  destruct (getitem messages message_name) as [message|]; [|done].
  cbn [mbind result_bind].
  destruct (setitem message "payload" schema) as [message'|]; [|done].
  cbn [mbind result_bind].
  destruct (setitem messages message_name message') as [messages'|]; [|done].
  cbn [mbind result_bind].
  destruct (setitem components "messages" messages') as [components'|];
    [|done].
  cbn [mbind result_bind]. intros [= <-]. eauto.
Qed.

Lemma messages_loop_inv (items : list (string * Message descriptor)) d reg0
    (json_spec : value descriptor) reg :
  messages_loop type_as_jsonschema items (VDict d) reg0 = Ok (json_spec, reg) ->
  exists d', json_spec = VDict d'
    /\ forall k, k <> "components" -> dict_get k d' = dict_get k d.
Proof.
  revert d reg0.
  induction items as [|[message_name message_type] items IH]; intros d reg0.
  - intros [= <- <-]. by exists d.
  - cbn [messages_loop].
    destruct (Message_payload message_type) as [t|]; [|by apply IH].
    destruct (type_as_jsonschema t) as [schema|]; [|done].
    cbn [mbind result_bind].
    destruct (set_component_payload _ _ _) as [json_spec'|] eqn:Hset;
      [|done].
    cbn [mbind result_bind].
    apply set_component_payload_inv in Hset as [components ->].
    intros (d' & -> & Hd')%IH. exists d'. split; [done|].
    intros k Hk. rewrite Hd' by done. by apply dict_get_set_ne.
Qed.

Lemma spec_asjson_dict spec :
  _spec_asjson (spec_value class_fields spec)
  = VDict (dict_of (_spec_asjson (spec_value class_fields spec))).
Proof. done. Qed.

Lemma spec_gets spec :
  wf_spec spec ->
  dict_get "servers" (dict_of (_spec_asjson (spec_value class_fields spec)))
  = Some (VDict ((fun ks => (ks.1, _spec_asjson (server_value ks.2)))
                   <$> Specification_servers spec))
  /\ dict_get "channels"
       (dict_of (_spec_asjson (spec_value class_fields spec)))
     = Some (VDict
               ((fun kc =>
                   (kc.1, _spec_asjson (channel_value class_fields kc.2)))
                  <$> Specification_channels spec)).
Proof.
  intros (Hd & Hs & Hc & _). unfold spec_value. cbn [_spec_asjson dict_of].
  split.
  - erewrite (record_get _ _ _ "servers"); [|reflexivity|exact Hd|left].
    by rewrite mapping_asjson.
  - erewrite (record_get _ _ _ "channels");
      [|reflexivity|exact Hd|right; left].
    by rewrite mapping_asjson.
Qed.

(** The compiler as one pass over the components table and one traversal
    of the channels. *)
Lemma spec_asjson_eq spec :
  wf_spec spec ->
  spec_asjson type_as_jsonschema class_fields spec
  = '(json_spec, reg) ←
      messages_loop type_as_jsonschema (spec_messages_dict spec)
        (_spec_asjson (spec_value class_fields spec)) ∅;
    channel_dicts ←
      compiled_channels type_as_jsonschema class_fields reg
        (Specification_channels spec);
    Ok (VDict
          (dict_set "channels" (VDict channel_dicts)
             (dict_set "servers"
                (VDict (compiled_servers (Specification_servers spec)))
                (dict_of json_spec)))).
Proof.
  intros Hwf. destruct (spec_gets spec Hwf) as [Hs Hc].
  unfold spec_asjson.
  destruct (messages_loop _ _ _ _) as [[json_spec reg]|] eqn:Hloop; [|done].
  cbn [mbind result_bind].
  rewrite spec_asjson_dict in Hloop.
  apply messages_loop_inv in Hloop as (d' & -> & Hd').
  cbn [getitem dict_of]. rewrite (Hd' "servers"), Hs by done.
  cbn [mbind result_bind items_of]. rewrite servers_loop_eq.
  cbn [mbind result_bind setitem getitem].
  rewrite dict_get_set_ne, (Hd' "channels"), Hc by done.
  cbn [mbind result_bind items_of].
  rewrite channels_loop_eq by apply Hwf.
  by destruct (compiled_channels _ _ _ _).
Qed.

(** *** The name to key map *)

Lemma messages_loop_registry (items : list (string * Message descriptor))
    (json_spec0 json_spec : value descriptor) reg0 reg :
  messages_loop type_as_jsonschema items json_spec0 reg0
  = Ok (json_spec, reg) ->
  forall name,
    reg !! name
    = match last_declared name items with
      | Some key => Some key
      | None => reg0 !! name
      end.
Proof.
  revert json_spec0 reg0.
  induction items as [|[message_name message_type] items IH];
    intros json_spec0 reg0.
  - by intros [= <- <-].
  - cbn [messages_loop last_declared].
    destruct (Message_payload message_type) as [t|] eqn:Hp.
    + destruct (type_as_jsonschema t) as [schema|]; [|done].
      cbn [mbind result_bind].
      destruct (set_component_payload _ _ _) as [json_spec'|]; [|done].
      cbn [mbind result_bind].
      intros Hloop name. rewrite (IH _ _ Hloop name).
      destruct (last_declared name items); [done|].
      destruct (nonempty (Message_name message_type)) as [name'|].
      * destruct (decide (name' = name)) as [->|Hne].
        -- rewrite lookup_insert_eq. rewrite bool_decide_eq_true_2; eauto.
        -- rewrite lookup_insert_ne by done.
           rewrite bool_decide_eq_false_2; [done|].
           intros [_ [= ?]]. done.
      * rewrite bool_decide_eq_false_2; [done|]. by intros [_ ?].
    + intros Hloop name. rewrite (IH _ _ Hloop name).
      destruct (last_declared name items); [done|].
      rewrite bool_decide_eq_false_2; [done|].
      intros [[? [=]] _].
Qed.

Lemma last_declared_elem name (items : list (string * Message descriptor)) key :
  last_declared name items = Some key ->
  exists m,
    (key, m) ∈ items /\ is_Some (Message_payload m)
    /\ nonempty (Message_name m) = Some name.
Proof.
  induction items as [|[k m] items IH]; [done|].
  cbn [last_declared]. destruct (last_declared name items) as [key'|].
  - intros [= ->]. destruct IH as (m' & ? & ? & ?); [done|].
    exists m'. split_and!; [by right|done..].
  - case_bool_decide as H; [|done]. intros [= ->].
    exists m. split_and!; [left|apply H..].
Qed.

Lemma last_declared_app name (before after : list (string * Message descriptor)) :
  last_declared name (before ++ after)
  = match last_declared name after with
    | Some key => Some key
    | None => last_declared name before
    end.
Proof.
  induction before as [|[k m] before IH]; csimpl.
  - by destruct (last_declared name after).
  - rewrite IH. by destruct (last_declared name after).
Qed.

Lemma last_declared_None name (items : list (string * Message descriptor)) :
  Forall (fun km => nonempty (Message_name km.2) <> Some name) items ->
  last_declared name items = None.
Proof.
  induction 1 as [|[k m] items Hm _ IH]; [done|].
  cbn [last_declared]. rewrite IH.
  rewrite bool_decide_eq_false_2; [done|]. by intros [_ ?].
Qed.

Lemma last_declared_is_Some name (items : list (string * Message descriptor))
    key m :
  (key, m) ∈ items -> is_Some (Message_payload m) ->
  nonempty (Message_name m) = Some name ->
  is_Some (last_declared name items).
Proof.
  intros Hin Hp Hn.
  induction items as [|[k' m'] items IH]; [by apply elem_of_nil in Hin|].
  cbn [last_declared]. apply elem_of_cons in Hin as [E|Hin].
  - injection E as <- <-. destruct (last_declared name items); [eauto|].
    rewrite bool_decide_eq_true_2; eauto.
  - destruct (IH Hin) as [key' ->]. eauto.
Qed.

(** *** Where the compiled messages are in the document *)

Lemma compiled_channels_keys reg
    (channels : list (string * Channel descriptor)) channel_dicts :
  compiled_channels type_as_jsonschema class_fields reg channels
  = Ok channel_dicts ->
  channel_dicts.*1 = channels.*1.
Proof.
  revert channel_dicts.
  induction channels as [|[k c] channels IH]; intros channel_dicts.
  - by intros [= <-].
  - cbn [compiled_channels].
    destruct (compiled_channel _ _ _ _) as [cd|]; [|done].
    cbn [mbind result_bind].
    destruct (compiled_channels _ _ _ _) as [cds|]; [|done].
    cbn [mbind result_bind]. intros [= <-]. csimpl. f_equal. by apply IH.
Qed.

Lemma compiled_channels_get reg
    (channels : list (string * Channel descriptor)) channel_dicts k c :
  compiled_channels type_as_jsonschema class_fields reg channels
  = Ok channel_dicts ->
  NoDup channels.*1 -> (k, c) ∈ channels ->
  exists channel_dict,
    compiled_channel type_as_jsonschema class_fields reg c = Ok channel_dict
    /\ dict_get k channel_dicts = Some channel_dict.
Proof.
  revert channel_dicts.
  induction channels as [|[k' c'] channels IH]; intros channel_dicts.
  - intros _ _ H. by apply elem_of_nil in H.
  - cbn [compiled_channels].
    destruct (compiled_channel _ _ _ c') as [cd|] eqn:Hcd; [|done].
    cbn [mbind result_bind].
    destruct (compiled_channels _ _ _ _) as [cds|]; [|done].
    cbn [mbind result_bind]. intros [= <-].
    csimpl. intros [Hk Hd]%NoDup_cons [E|Hin]%elem_of_cons.
    + injection E as -> ->. exists cd. by rewrite decide_True.
    + destruct (IH cds eq_refl Hd Hin) as (cd' & ? & ?).
      exists cd'. split; [done|]. rewrite decide_False; [done|].
      intros ->. apply Hk. by apply (list_elem_of_fmap_2 fst _ (k', c)).
Qed.

Lemma compiled_channel_inv reg c channel_dict :
  compiled_channel type_as_jsonschema class_fields reg c = Ok channel_dict ->
  exists d,
    channel_dict = VDict d /\ dict_get "name" d = None
    /\ forall side o, (side, Some o) ∈ channel_operations c ->
         exists operation_dict,
           compiled_operation type_as_jsonschema class_fields reg o
           = Ok operation_dict
           /\ dict_get side d = Some operation_dict.
Proof.
  unfold compiled_channel.
  destruct (put_operation _ _ _ "subscribe" _ _) as [d1|] eqn:E1; [|done].
  cbn [mbind result_bind].
  destruct (put_operation _ _ _ "publish" _ _) as [d2|] eqn:E2; [|done].
  cbn [mbind result_bind]. intros [= <-]. exists d2. split; [done|]. split.
  - rewrite (put_operation_get _ _ _ _ _ _ E2) by done.
    rewrite (put_operation_get _ _ _ _ _ _ E1) by done.
    apply dict_get_pop_eq, channel_NoDup.
  - intros side o. unfold channel_operations.
    rewrite !elem_of_cons, elem_of_nil.
    intros [[= -> Ho]|[[= -> Ho]|[]]].
    + rewrite (put_operation_get _ _ _ _ _ _ E2) by done.
      rewrite <- Ho in E1. unfold put_operation in E1.
      destruct (compiled_operation _ _ _ o) as [od|]; [|done].
      injection E1 as <-. exists od. by rewrite dict_get_set_eq.
    + rewrite <- Ho in E2. unfold put_operation in E2.
      destruct (compiled_operation _ _ _ o) as [od|]; [|done].
      injection E2 as <-. exists od. by rewrite dict_get_set_eq.
Qed.

Lemma compiled_operation_inv reg o m operation_dict :
  compiled_operation type_as_jsonschema class_fields reg o
  = Ok operation_dict ->
  Operation_message o = Some m ->
  exists message,
    compiled_message type_as_jsonschema class_fields reg m = Ok message
    /\ at_path ["message"] operation_dict = Some message.
Proof.
  unfold compiled_operation. intros H Hm. rewrite Hm in H.
  destruct (compiled_message _ _ _ _) as [message|]; [|done].
  injection H as <-. exists message. split; [done|].
  cbn [at_path]. by rewrite dict_get_set_eq.
Qed.

Lemma compiled_message_at spec doc k c side o m :
  wf_spec spec ->
  spec_asjson type_as_jsonschema class_fields spec = Ok doc ->
  (k, c) ∈ Specification_channels spec ->
  (side, Some o) ∈ channel_operations c ->
  Operation_message o = Some m ->
  exists reg message,
    (forall name, reg !! name = last_declared name (spec_messages_dict spec))
    /\ compiled_message type_as_jsonschema class_fields reg m = Ok message
    /\ at_path ["channels"; k; side; "message"] doc = Some message.
Proof.
  intros Hwf Hdoc Hc Ho Hm. rewrite spec_asjson_eq in Hdoc by done.
  destruct (messages_loop _ _ _ _) as [[json_spec reg]|] eqn:Hloop; [|done].
  cbn [mbind result_bind] in Hdoc.
  destruct (compiled_channels _ _ _ _) as [cds|] eqn:Hcds; [|done].
  injection Hdoc as <-.
  pose proof (messages_loop_registry _ _ _ _ _ Hloop) as Hreg.
  destruct (compiled_channels_get _ _ _ k c Hcds) as (cd & Hcd & Hget);
    [apply Hwf|done|].
  apply compiled_channel_inv in Hcd as (d & -> & _ & Hops).
  destruct (Hops _ _ Ho) as (od & Hod & Hside).
  destruct (compiled_operation_inv _ _ _ _ Hod Hm) as (message & Hmsg & Hat).
  exists reg, message. split_and!; [|done|].
  - intros name. rewrite Hreg, lookup_empty.
    by destruct (last_declared name _).
  - cbn [at_path]. rewrite dict_get_set_eq. cbn [mbind option_bind].
    rewrite Hget. cbn [mbind option_bind]. rewrite Hside.
    cbn [mbind option_bind]. exact Hat.
Qed.

Lemma compiled_channels_Forall reg
    (channels : list (string * Channel descriptor)) channel_dicts :
  compiled_channels type_as_jsonschema class_fields reg channels
  = Ok channel_dicts ->
  Forall (fun entry => exists c,
            compiled_channel type_as_jsonschema class_fields reg c
            = Ok entry.2) channel_dicts.
Proof.
  revert channel_dicts.
  induction channels as [|[k c] channels IH]; intros channel_dicts.
  - intros [= <-]. constructor.
  - cbn [compiled_channels].
    destruct (compiled_channel _ _ _ _) as [cd|] eqn:Hcd; [|done].
    cbn [mbind result_bind].
    destruct (compiled_channels _ _ _ _) as [cds|]; [|done].
    cbn [mbind result_bind]. intros [= <-].
    constructor; [by exists c | by apply IH].
Qed.

(** *** When the compiler returns a document *)

Lemma is_Ok_bind {A B : Type} (r : result A) (f : A -> result B) :
  is_Ok r -> (forall a, r = Ok a -> is_Ok (f a)) -> is_Ok (r ≫= f).
Proof. destruct r; [|done]. intros _ H. by apply H. Qed.

Lemma is_Ok_inv {A : Type} (r : result A) : is_Ok r -> exists a, r = Ok a.
Proof. destruct r; [eauto|done]. Qed.

Lemma messages_loop_total (items : list (string * Message descriptor)) d reg0 :
  (exists components messages,
     dict_get "components" d = Some (VDict components)
     /\ dict_get "messages" components = Some (VDict messages)
     /\ forall k, k ∈ items.*1 ->
          exists message, dict_get k messages = Some (VDict message)) ->
  Forall (fun t => is_Ok (type_as_jsonschema t))
    (omap Message_payload items.*2) ->
  is_Ok (messages_loop type_as_jsonschema items (VDict d) reg0).
Proof.
  revert d reg0.
  induction items as [|[message_name message_type] items IH];
    intros d reg0 (components & messages & Hc & Hm & Hk) Hs; [done|].
  cbn [messages_loop]. revert Hs. csimpl.
  destruct (Message_payload message_type) as [t|].
  - intros [[schema Ht]%is_Ok_inv Hs]%Forall_cons. rewrite Ht.
    cbn [mbind result_bind]. unfold set_component_payload.
    cbn [getitem]. rewrite Hc. cbn [mbind result_bind getitem]. rewrite Hm.
    cbn [mbind result_bind getitem].
    destruct (Hk message_name) as [message ->]; [left|].
    cbn [mbind result_bind setitem]. apply IH; [|done].
    eexists _, _. split_and!; [apply dict_get_set_eq..|].
    intros k Hin. rewrite dict_get_set. case_decide; [eauto|].
    apply Hk. by right.
  - intros Hs. apply IH; [|done].
    exists components, messages. split_and!; [done..|].
    intros k Hin. apply Hk. by right.
Qed.

Lemma spec_messages_total spec reg0 :
  wf_spec spec ->
  Forall (fun t => is_Ok (type_as_jsonschema t))
    (omap Message_payload (spec_messages_dict spec).*2) ->
  is_Ok (messages_loop type_as_jsonschema (spec_messages_dict spec)
           (_spec_asjson (spec_value class_fields spec)) reg0).
Proof.
  intros (Hd & _ & _ & _ & Hcomp) Hs. rewrite spec_asjson_dict.
  revert Hs. unfold spec_messages_dict.
  destruct (Specification_components spec) as [components|] eqn:Ec; [|done].
  destruct (Components_messages components) as [messages|] eqn:Em; [|done].
  intros Hs. apply messages_loop_total; [|done].
  destruct Hcomp as [Hdc Hnd]. rewrite Em in Hnd. cbn [from_option] in Hnd.
  exists (dict_of (_spec_asjson (components_value class_fields components))),
    ((fun kv => (kv.1, _spec_asjson (message_value class_fields kv.2)))
       <$> messages).
  split_and!.
  - unfold spec_value. cbn [_spec_asjson dict_of].
    erewrite (record_get _ _ _ "components");
      [|reflexivity|exact Hd|right; right; left].
    rewrite Ec. reflexivity.
  - unfold components_value. cbn [_spec_asjson dict_of].
    erewrite (record_get _ _ _ "messages"); [|reflexivity|exact Hdc|left].
    rewrite Em. cbn [optional]. by rewrite mapping_asjson.
  - intros k ([k' m] & -> & Hin)%list_elem_of_fmap_1.
    exists (dict_of (_spec_asjson (message_value class_fields m))).
    apply dict_get_elem.
    + by rewrite <- list_fmap_compose.
    + by apply (list_elem_of_fmap_2
        (fun kv => (kv.1, _spec_asjson (message_value class_fields kv.2)))
        _ (k', m)).
Qed.

Lemma compiled_channels_total reg
    (channels : list (string * Channel descriptor)) :
  (forall k c side o, (k, c) ∈ channels ->
     (side, Some o) ∈ channel_operations c ->
     exists m, Operation_message o = Some m
       /\ forall t, Message_payload m = Some t ->
            is_Ok (type_as_jsonschema t)) ->
  is_Ok (compiled_channels type_as_jsonschema class_fields reg channels).
Proof.
  assert (Hop : forall o : Operation descriptor,
    (exists m, Operation_message o = Some m
       /\ forall t, Message_payload m = Some t ->
            is_Ok (type_as_jsonschema t)) ->
    is_Ok (compiled_operation type_as_jsonschema class_fields reg o)).
  { intros o (m & Hm & Ht). unfold compiled_operation, compiled_message.
    rewrite Hm. destruct (nonempty _ ≫= _); [done|].
    destruct (Message_payload m) as [t|]; [|done].
    specialize (Ht t eq_refl). by destruct (type_as_jsonschema t). }
  assert (Hput : forall key (o : option (Operation descriptor)) d,
    (forall o', o = Some o' ->
       is_Ok (compiled_operation type_as_jsonschema class_fields reg o')) ->
    is_Ok (put_operation type_as_jsonschema class_fields reg key o d)).
  { intros key [o|] d H; [|done]. unfold put_operation.
    specialize (H o eq_refl). by destruct (compiled_operation _ _ _ o). }
  induction channels as [|[k c] channels IH]; intros H; [done|].
  cbn [compiled_channels]. apply is_Ok_bind.
  - unfold compiled_channel. apply is_Ok_bind.
    + apply Hput. intros o Ho. apply Hop, (H k c "subscribe"); [left|].
      rewrite <- Ho. left.
    + intros d1 _. apply is_Ok_bind; [|done].
      apply Hput. intros o Ho. apply Hop, (H k c "publish"); [left|].
      rewrite <- Ho. right; left.
  - intros cd _. apply is_Ok_bind; [|done].
    apply IH. intros k' c' side o Hin. apply (H k' c'). by right.
Qed.

Lemma spec_operations_elem spec k c side o :
  (k, c) ∈ Specification_channels spec ->
  (side, Some o) ∈ channel_operations c ->
  o ∈ spec_operations spec.
Proof.
  intros Hc Ho. unfold spec_operations. apply list_elem_of_bind.
  exists c. split; [|by apply (list_elem_of_fmap_2 snd _ (k, c))].
  apply list_elem_of_omap. exists (Some o). split; [|done].
  revert Ho. unfold channel_operations.
  rewrite !elem_of_cons, !elem_of_nil.
  intros [[= _ <-]|[[= _ <-]|[]]]; auto.
Qed.

Lemma spec_asjson_total spec :
  wf_spec spec -> messages_present spec ->
  schemas_defined type_as_jsonschema spec ->
  is_Ok (spec_asjson type_as_jsonschema class_fields spec).
Proof.
  intros Hwf Hm Hs. rewrite spec_asjson_eq by done.
  unfold schemas_defined, spec_payloads in Hs.
  rewrite omap_app in Hs. apply Forall_app in Hs as [Hs1 Hs2].
  apply is_Ok_bind; [by apply spec_messages_total|].
  intros [json_spec reg] _. apply is_Ok_bind; [|done].
  apply compiled_channels_total. intros k c side o Hc Ho.
  pose proof (spec_operations_elem _ _ _ _ _ Hc Ho) as Hin.
  unfold messages_present in Hm. rewrite Forall_forall in Hm.
  destruct (Hm o Hin) as [m Hom]. exists m. split; [done|].
  intros t Ht. rewrite Forall_forall in Hs2. apply Hs2.
  apply list_elem_of_omap. exists m. split; [|done].
  apply list_elem_of_omap. by exists o.
Qed.

End CompilerFacts.

(** ** The schema generator as the one input apart from the specification *)

Section Determinism.
Context {descriptor : Type}.
Variables type_as_jsonschema type_as_jsonschema'
  : descriptor -> result (value descriptor).
Variable class_fields : descriptor -> option (list (string * value descriptor)).






(** *** One specification in two runs *)















End Determinism.

(** ** Properties of the compiled document *)

Section Claims.
Context {descriptor : Type}.
Variable type_as_jsonschema : descriptor -> result (value descriptor).
Variable class_fields : descriptor -> option (list (string * value descriptor)).

Lemma kept_false (v : value descriptor) :
  kept v = false <-> v = VNone \/ v = VStr "".
Proof.
  destruct v as [| | |s| | | | | |]; cbn; try by (split; [|intros [|]]).
  - tauto.
  - destruct s; cbn; [tauto|]. by (split; [|intros [|]]).
Qed.

(** C6 (omission law), as the code has it.  In the mapping that
    serializes a record whose fields have distinct document keys, a field
    whose serialized value is null or the empty string has no entry, and a
    field with any other serialized value is there under its camelCase
    name. *)
Theorem omission_law (fields : list (string * value descriptor)) name x :
  NoDup (document_keys fields) -> (name, x) ∈ fields ->
  (_spec_asjson x = VNone \/ _spec_asjson x = VStr "" ->
   at_path [as_camel_case name] (_spec_asjson (VData fields)) = None)
  /\ (_spec_asjson x <> VNone -> _spec_asjson x <> VStr "" ->
      at_path [as_camel_case name] (_spec_asjson (VData fields))
      = Some (_spec_asjson x)).
Proof.
  intros Hd Hin. cbn [_spec_asjson at_path].
  rewrite (record_get _ _ _ name x) by done.
  destruct (kept (_spec_asjson x)) eqn:Hk.
  - split; [|done]. intros H%kept_false. congruence.
  - apply kept_false in Hk. split; [done|]. intros ? ?. tauto.
Qed.

(** C9 (mappings keep every key).  The serializer drops nothing from a
    mapping: the keys are those of the input in the same order, and every
    key has the serialized value of its entry, null included. *)
Theorem mapping_keys_kept (items : list (string * value descriptor)) :
  NoDup items.*1 ->
  exists json_value,
    _spec_asjson (VDict items) = VDict json_value
    /\ json_value.*1 = items.*1
    /\ (forall k v, (k, v) ∈ items ->
          dict_get k json_value = Some (_spec_asjson v))
    /\ (forall k v, (k, v) ∈ items -> _spec_asjson v = VNone ->
          dict_get k json_value = Some VNone).
Proof.
  intros Hd. eexists. split.
  { cbn [_spec_asjson]. by rewrite dict_asjson_distinct. }
  assert (Hkeys : ([] ++ ((fun kv => (kv.1, _spec_asjson kv.2)) <$> items)).*1
                  = items.*1).
  { csimpl. by rewrite <- list_fmap_compose. }
  assert (Hget : forall k v, (k, v) ∈ items ->
    dict_get k ([] ++ ((fun kv => (kv.1, _spec_asjson kv.2)) <$> items))
    = Some (_spec_asjson v)).
  { intros k v Hin. apply dict_get_elem; [by rewrite Hkeys|]. csimpl.
    by apply (list_elem_of_fmap_2
                (fun kv => (kv.1, _spec_asjson kv.2)) _ (k, v)). }
  split_and!; [done..|].
  intros k v Hin Hv. rewrite <- Hv. by apply Hget.
Qed.


Lemma server_NoDup (s : Server descriptor) :
  NoDup (dict_of (_spec_asjson (server_value s))).*1.
Proof.
  unfold server_value. cbn [_spec_asjson dict_of].
  apply fields_asjson_NoDup, NoDup_nil_2.
Qed.

(** C7 (name stripping).  In the compiled document the servers and the
    channels are under the keys of the specification, in the same order, and
    no entry of either has a [name] key. *)
Theorem names_stripped (spec : Specification descriptor) doc :
  wf_spec spec ->
  spec_asjson type_as_jsonschema class_fields spec = Ok doc ->
  exists servers channels,
    at_path ["servers"] doc = Some (VDict servers)
    /\ at_path ["channels"] doc = Some (VDict channels)
    /\ servers.*1 = (Specification_servers spec).*1
    /\ channels.*1 = (Specification_channels spec).*1
    /\ Forall (fun entry => exists d,
                 entry.2 = VDict d /\ dict_get "name" d = None) servers
    /\ Forall (fun entry => exists d,
                 entry.2 = VDict d /\ dict_get "name" d = None) channels.
Proof.
  intros Hwf Hdoc. rewrite spec_asjson_eq in Hdoc by done.
  destruct (messages_loop _ _ _ _) as [[json_spec reg]|]; [|done].
  cbn [mbind result_bind] in Hdoc.
  destruct (compiled_channels _ _ _ _) as [cds|] eqn:Hcds; [|done].
  injection Hdoc as <-.
  exists (compiled_servers (Specification_servers spec)), cds.
  split_and!.
  - cbn [at_path]. rewrite dict_get_set_ne by done.
    by rewrite dict_get_set_eq.
  - cbn [at_path]. by rewrite dict_get_set_eq.
  - unfold compiled_servers. by rewrite <- list_fmap_compose.
  - by apply compiled_channels_keys in Hcds.
  - unfold compiled_servers. apply Forall_fmap, Forall_true.
    intros [k s]. eexists. split; [done|].
    apply dict_get_pop_eq, server_NoDup.
  - eapply Forall_impl; [by apply compiled_channels_Forall in Hcds|].
    intros [k cd] [c Hc]. cbn [snd] in *.
    apply compiled_channel_inv in Hc as (d & -> & Hname & _). eauto.
Qed.

Lemma wf_message_of (spec : Specification descriptor) k c side o m :
  wf_spec spec ->
  (k, c) ∈ Specification_channels spec ->
  (side, Some o) ∈ channel_operations c ->
  Operation_message o = Some m ->
  wf_message m.
Proof.
  intros (_ & _ & _ & Hcs & _) Hc Ho Hm.
  rewrite Forall_forall in Hcs. destruct (Hcs _ Hc) as (_ & Hs & Hp).
  cbn [snd] in Hs, Hp. revert Ho. unfold channel_operations.
  rewrite !elem_of_cons, elem_of_nil.
  intros [[= _ Ho]|[[= _ Ho]|[]]].
  - rewrite <- Ho in Hs. destruct Hs as [_ Hs]. by rewrite Hm in Hs.
  - rewrite <- Ho in Hp. destruct Hp as [_ Hp]. by rewrite Hm in Hp.
Qed.

Lemma message_no_ref (m : Message descriptor) :
  wf_message m ->
  dict_get "$ref" (dict_of (_spec_asjson (message_value class_fields m)))
  = None.
Proof.
  intros [_ Hid]. apply dict_get_None. intros Hin.
  unfold message_value in Hin. cbn [_spec_asjson dict_of] in Hin.
  apply record_keys in Hin. unfold document_keys in Hin.
  rewrite fmap_app, fmap_app in Hin.
  apply elem_of_app in Hin as [Hin|Hin].
  - by vm_compute in Hin; repeat (apply elem_of_cons in Hin as [?|Hin]);
      [..|apply elem_of_nil in Hin].
  - apply list_elem_of_fmap_1 in Hin as (name & E & Hin).
    apply list_elem_of_fmap_1 in Hin as ([name' x] & -> & Hin).
    rewrite Forall_forall in Hid. specialize (Hid _ Hin).
    by apply identifier_not_ref in Hid.
Qed.

Lemma message_NoDup (m : Message descriptor) :
  NoDup (dict_of (_spec_asjson (message_value class_fields m))).*1.
Proof.
  unfold message_value. cbn [_spec_asjson dict_of].
  apply fields_asjson_NoDup, NoDup_nil_2.
Qed.

(** C1 (reference correctness), as the code has it.  When the message of
    an operation declares a non-empty name that an entry of the components
    table with a payload declares too, the compiled message is exactly the
    reference to the key of the last such entry. *)
Theorem reference_correct (spec : Specification descriptor) doc
    k c side o m name key0 m0 :
  wf_spec spec ->
  spec_asjson type_as_jsonschema class_fields spec = Ok doc ->
  (k, c) ∈ Specification_channels spec ->
  (side, Some o) ∈ channel_operations c ->
  Operation_message o = Some m ->
  nonempty (Message_name m) = Some name ->
  (key0, m0) ∈ spec_messages_dict spec ->
  nonempty (Message_name m0) = Some name ->
  is_Some (Message_payload m0) ->
  exists key,
    last_declared name (spec_messages_dict spec) = Some key
    /\ at_path ["channels"; k; side; "message"] doc
       = Some (VDict [("$ref", VStr ("#/components/messages/" +:+ key))]).
Proof.
  intros Hwf Hdoc Hc Ho Hm Hname Hin Hname0 Hp0.
  destruct (compiled_message_at _ _ _ _ _ _ _ _ _ Hwf Hdoc Hc Ho Hm)
    as (reg & message & Hreg & Hmsg & Hat).
  destruct (last_declared_is_Some name _ _ _ Hin Hp0 Hname0) as [key Hkey].
  exists key. split; [done|]. rewrite Hat. f_equal.
  unfold compiled_message in Hmsg. rewrite Hname in Hmsg.
  cbn [mbind option_bind] in Hmsg. rewrite Hreg, Hkey in Hmsg.
  by injection Hmsg as <-.
Qed.

(** C5 (fallback correctness), as the code has it.  When the message of an
    operation has a payload and no name that the components table
    resolves, the compiled message has the generated schema under
    [payload], has neither [$ref] nor [contentType], and has every other
    key of the serialized message with its value. *)
Theorem fallback_correct (spec : Specification descriptor) doc
    k c side o m t :
  wf_spec spec ->
  spec_asjson type_as_jsonschema class_fields spec = Ok doc ->
  (k, c) ∈ Specification_channels spec ->
  (side, Some o) ∈ channel_operations c ->
  Operation_message o = Some m ->
  Message_payload m = Some t ->
  (forall name, nonempty (Message_name m) = Some name ->
     last_declared name (spec_messages_dict spec) = None) ->
  exists schema compiled,
    type_as_jsonschema t = Ok schema
    /\ at_path ["channels"; k; side; "message"] doc = Some (VDict compiled)
    /\ dict_get "payload" compiled = Some schema
    /\ dict_get "$ref" compiled = None
    /\ dict_get "contentType" compiled = None
    /\ forall key, key <> "payload" -> key <> "contentType" ->
         dict_get key compiled
         = dict_get key
             (dict_of (_spec_asjson (message_value class_fields m))).
Proof.
  intros Hwf Hdoc Hc Ho Hm Hp Hname.
  destruct (compiled_message_at _ _ _ _ _ _ _ _ _ Hwf Hdoc Hc Ho Hm)
    as (reg & message & Hreg & Hmsg & Hat).
  pose proof (wf_message_of _ _ _ _ _ _ Hwf Hc Ho Hm) as Hwm.
  unfold compiled_message in Hmsg.
  assert (nonempty (Message_name m) ≫= (reg !!.) = None) as Hnone.
  { destruct (nonempty (Message_name m)) as [name|]; [|done].
    cbn [mbind option_bind]. rewrite Hreg. by apply Hname. }
  rewrite Hnone, Hp in Hmsg.
  destruct (type_as_jsonschema t) as [schema|]; [|done].
  injection Hmsg as <-. eexists schema, _. split_and!; [done|exact Hat|..].
  - apply dict_get_set_eq.
  - rewrite dict_get_set_ne, dict_get_pop_ne by done.
    by apply message_no_ref.
  - rewrite dict_get_set_ne by done. apply dict_get_pop_eq, message_NoDup.
  - intros key ? ?. by rewrite dict_get_set_ne, dict_get_pop_ne.
Qed.

(** C3 (registry build), as the code has it.  After the loop over the
    components table, the name to key map has every non-empty name that an
    entry with a payload declares; the name is bound to the key of such an
    entry, and to the key of this entry when no later one declares it. *)
Theorem registry_complete (items : list (string * Message descriptor))
    json_spec0 reg0 json_spec reg key m name :
  messages_loop type_as_jsonschema items json_spec0 reg0
  = Ok (json_spec, reg) ->
  (key, m) ∈ items ->
  nonempty (Message_name m) = Some name ->
  is_Some (Message_payload m) ->
  exists key' m',
    reg !! name = Some key'
    /\ (key', m') ∈ items
    /\ nonempty (Message_name m') = Some name
    /\ is_Some (Message_payload m')
    /\ forall before after,
         items = before ++ (key, m) :: after ->
         last_declared name after = None -> key' = key.
Proof.
  intros Hloop Hin Hname Hp.
  pose proof (messages_loop_registry _ _ _ _ _ _ Hloop name) as Hreg.
  destruct (last_declared_is_Some name _ _ _ Hin Hp Hname) as [key' Hkey].
  rewrite Hkey in Hreg.
  destruct (last_declared_elem _ _ _ Hkey) as (m' & ? & ? & ?).
  exists key', m'. split_and!; [done..|].
  intros before after -> Hafter. rewrite last_declared_app in Hkey.
  cbn [last_declared] in Hkey. rewrite Hafter in Hkey.
  rewrite bool_decide_eq_true_2 in Hkey by done. congruence.
Qed.

(** C2 (duplicate names), as the code has it.  Two entries of the
    components table with one declared name do not make the compiler fail:
    it returns a document whenever every payload has a schema and every
    operation has a message. *)
Theorem duplicate_names_compile (spec : Specification descriptor)
    key1 m1 key2 m2 name :
  wf_spec spec -> messages_present spec ->
  schemas_defined type_as_jsonschema spec ->
  (key1, m1) ∈ spec_messages_dict spec ->
  (key2, m2) ∈ spec_messages_dict spec ->
  key1 <> key2 ->
  nonempty (Message_name m1) = Some name ->
  nonempty (Message_name m2) = Some name ->
  exists doc, spec_asjson type_as_jsonschema class_fields spec = Ok doc.
Proof.
  intros Hwf Hm Hs _ _ _ _ _. by apply is_Ok_inv, spec_asjson_total.
Qed.

(** C10 (last writer wins).  When the entries of the components table that
    declare a name all have a payload, the compiler raises nothing on their
    account and resolves the name to the key of the last of them. *)
Theorem last_writer_wins (spec : Specification descriptor)
    before key m after name k c side o m' :
  wf_spec spec -> messages_present spec ->
  schemas_defined type_as_jsonschema spec ->
  spec_messages_dict spec = before ++ (key, m) :: after ->
  Forall (fun entry => nonempty (Message_name entry.2) = Some name ->
                       is_Some (Message_payload entry.2))
    (spec_messages_dict spec) ->
  nonempty (Message_name m) = Some name ->
  Forall (fun entry => nonempty (Message_name entry.2) <> Some name) after ->
  (k, c) ∈ Specification_channels spec ->
  (side, Some o) ∈ channel_operations c ->
  Operation_message o = Some m' ->
  nonempty (Message_name m') = Some name ->
  exists doc,
    spec_asjson type_as_jsonschema class_fields spec = Ok doc
    /\ at_path ["channels"; k; side; "message"] doc
       = Some (VDict [("$ref", VStr ("#/components/messages/" +:+ key))]).
Proof.
  intros Hwf Hpresent Hs Htable Hall Hname Hafter Hc Ho Hm' Hname'.
  destruct (is_Ok_inv _
    (spec_asjson_total type_as_jsonschema class_fields _ Hwf Hpresent Hs))
    as [doc Hdoc].
  exists doc. split; [done|].
  destruct (compiled_message_at _ _ _ _ _ _ _ _ _ Hwf Hdoc Hc Ho Hm')
    as (reg & message & Hreg & Hmsg & Hat).
  rewrite Hat. f_equal.
  unfold compiled_message in Hmsg. rewrite Hname' in Hmsg.
  cbn [mbind option_bind] in Hmsg. rewrite Hreg, Htable in Hmsg.
  rewrite last_declared_app in Hmsg. cbn [last_declared] in Hmsg.
  rewrite last_declared_None in Hmsg by done.
  rewrite bool_decide_eq_true_2 in Hmsg.
  - by injection Hmsg as <-.
  - split; [|done]. rewrite Forall_forall in Hall.
    apply (Hall (key, m)); [|done].
    rewrite Htable. apply elem_of_app. right. left.
Qed.

End Claims.

(** ** The properties on the sample specifications *)


(** C4 (absent message).  On a specification whose only operation has no
    message the compiler raises [KeyError('message')]: the serialized
    operation has no [message] key and [set_operation_message] subscripts it
    before it looks at the operation. *)
Theorem absent_message_raises :
  Sample.compile Sample.orders_silent = Raise (KeyError "message").
Proof. by vm_compute. Qed.

(** C6, as the specification has it, fails on a record with two fields
    of one document key: the field [contentType] is null, and the mapping
    has an entry under its key, the one of the field [content_type]. *)
Lemma omission_law_collision :
  ("contentType", VNone) ∈ Cases.colliding_fields
  /\ _spec_asjson (VNone : value string) = VNone
  /\ at_path [as_camel_case "contentType"]
       (_spec_asjson (VData Cases.colliding_fields))
     = Some (VStr "application/json").
Proof. split_and!; [repeat constructor|done|by vm_compute]. Qed.

Lemma omission_law_witness :
  at_path ["contentType"] (_spec_asjson (VData Sample.binding_fields)) = None
  /\ at_path ["title"] (_spec_asjson (VData Sample.binding_fields)) = None
  /\ at_path ["maxSize"] (_spec_asjson (VData Sample.binding_fields))
     = Some (VInt 0)
  /\ at_path ["isSecure"] (_spec_asjson (VData Sample.binding_fields))
     = Some (VBool false)
  /\ at_path ["tags"] (_spec_asjson (VData Sample.binding_fields))
     = Some (VList [])
  /\ at_path ["bindings"] (_spec_asjson (VData Sample.binding_fields))
     = Some (VDict []).
Proof.
  assert (Hd : NoDup (document_keys Sample.binding_fields)) by compute_done.
  split_and!.
  - apply (omission_law Sample.binding_fields "content_type" (VStr ""));
      [done|repeat constructor|by right].
  - apply (omission_law Sample.binding_fields "title" VNone);
      [done|repeat constructor|by left].
  - by apply (omission_law Sample.binding_fields "max_size" (VInt 0));
      [|repeat constructor|..].
  - by apply (omission_law Sample.binding_fields "is_secure" (VBool false));
      [|repeat constructor|..].
  - by apply (omission_law Sample.binding_fields "tags" (VList []));
      [|repeat constructor|..].
  - by apply (omission_law Sample.binding_fields "bindings" (VDict []));
      [|repeat constructor|..].
Defined.

Lemma mapping_keys_kept_witness :
  exists json_value,
    _spec_asjson (VDict Sample.variables) = VDict json_value
    /\ json_value.*1 = ["port"; "host"; "retries"]
    /\ dict_get "port" json_value = Some VNone
    /\ dict_get "host" json_value = Some (VStr "").
Proof.
  destruct (mapping_keys_kept Sample.variables) as (j & H1 & H2 & H3 & H4);
    [compute_done|].
  exists j. split_and!; [done|done|..].
  - apply (H4 "port" VNone); [repeat constructor|done].
  - apply (H3 "host" (VStr "")). repeat constructor.
Defined.



Lemma names_stripped_witness :
  wf_spec Sample.orders
  /\ exists servers channels,
       at_path ["servers"] Sample.orders_document = Some (VDict servers)
       /\ at_path ["channels"] Sample.orders_document = Some (VDict channels)
       /\ servers.*1 = (Specification_servers Sample.orders).*1
       /\ channels.*1 = (Specification_channels Sample.orders).*1
       /\ Forall (fun entry => exists d,
                    entry.2 = VDict d /\ dict_get "name" d = None) servers
       /\ Forall (fun entry => exists d,
                    entry.2 = VDict d /\ dict_get "name" d = None) channels.
Proof.
  split; [solve_wf|].
  apply (names_stripped Sample.schema Sample.dataclass Sample.orders);
    [solve_wf|by vm_compute].
Defined.

(** C1, as the specification has it, fails on a shared message without
    payload: its name is declared in the components table, and the compiled
    message of the operation is the serialized message, not a reference. *)
Lemma reference_needs_payload :
  ("order-created", Sample.order_named)
    ∈ spec_messages_dict Sample.orders_without_payload
  /\ nonempty (Message_name Sample.order_named) = Some "OrderCreated"
  /\ exists doc,
       Sample.compile Sample.orders_without_payload = Ok doc
       /\ at_path ["channels"; "orders"; "publish"; "message"] doc
          = Some (VDict [("name", VStr "OrderCreated")])
       /\ at_path ["channels"; "orders"; "publish"; "message"] doc
          <> Some (VDict [("$ref",
                           VStr "#/components/messages/order-created")]).
Proof.
  split_and!; [repeat constructor|done|].
  eexists. split_and!; [by vm_compute|by vm_compute|by vm_compute].
Qed.

Lemma reference_correct_witness :
  wf_spec Sample.orders
  /\ exists key,
       last_declared "OrderCreated" (spec_messages_dict Sample.orders)
       = Some key
       /\ at_path ["channels"; "orders"; "publish"; "message"]
            Sample.orders_document
          = Some (VDict [("$ref", VStr ("#/components/messages/" +:+ key))]).
Proof.
  split; [solve_wf|].
  apply (reference_correct Sample.schema Sample.dataclass Sample.orders
           Sample.orders_document "orders"
           (Sample.channel "orders" None
              (Some (Sample.operation (Some Sample.order_created))))
           "publish" (Sample.operation (Some Sample.order_created))
           Sample.order_created "OrderCreated"
           "order-created" Sample.order_created);
    [solve_wf|by vm_compute|repeat constructor|repeat constructor
    |done|done|repeat constructor|done|by eexists].
Defined.

(** C2, as the specification has it, fails: two entries of the components
    table declare one name, and the compiler returns a document. *)
Lemma duplicate_names_accepted :
  ("first", Sample.order_created) ∈ spec_messages_dict Sample.orders_twice
  /\ ("second", Sample.order_created) ∈ spec_messages_dict Sample.orders_twice
  /\ nonempty (Message_name Sample.order_created) = Some "OrderCreated"
  /\ exists doc, Sample.compile Sample.orders_twice = Ok doc.
Proof.
  split_and!; [repeat constructor|repeat constructor|done|].
  eexists. by vm_compute.
Qed.

Lemma orders_twice_ready :
  wf_spec Sample.orders_twice /\ messages_present Sample.orders_twice
  /\ schemas_defined Sample.schema Sample.orders_twice.
Proof.
  split_and!; [solve_wf|..].
  - repeat constructor. by eexists.
  - by repeat constructor.
Defined.

Lemma duplicate_names_compile_witness :
  exists doc,
    spec_asjson Sample.schema Sample.dataclass Sample.orders_twice = Ok doc.
Proof.
  destruct orders_twice_ready as (Hwf & Hm & Hs).
  by apply (duplicate_names_compile Sample.schema Sample.dataclass
              Sample.orders_twice "first" Sample.order_created
              "second" Sample.order_created "OrderCreated");
    [..|repeat constructor|repeat constructor| | |].
Defined.

(** C3, as the specification has it, fails: after the loop the name of a
    shared message without payload is not in the name to key map. *)
Lemma registry_skips_payloadless :
  ("order-created", Sample.order_named)
    ∈ spec_messages_dict Sample.orders_without_payload
  /\ nonempty (Message_name Sample.order_named) = Some "OrderCreated"
  /\ exists json_spec reg,
       messages_loop Sample.schema
         (spec_messages_dict Sample.orders_without_payload)
         (_spec_asjson
            (spec_value Sample.dataclass Sample.orders_without_payload)) ∅
       = Ok (json_spec, reg)
       /\ reg !! "OrderCreated" = None.
Proof.
  split_and!; [repeat constructor|done|].
  eexists _, _. split; [by vm_compute|by vm_compute].
Qed.

Lemma registry_complete_witness :
  exists json_spec reg,
    messages_loop Sample.schema (spec_messages_dict Sample.orders_twice)
      (_spec_asjson (spec_value Sample.dataclass Sample.orders_twice)) ∅
    = Ok (json_spec, reg)
    /\ exists key' m',
         reg !! "OrderCreated" = Some key'
         /\ (key', m') ∈ spec_messages_dict Sample.orders_twice
         /\ nonempty (Message_name m') = Some "OrderCreated"
         /\ is_Some (Message_payload m')
         /\ forall before after,
              spec_messages_dict Sample.orders_twice
              = before ++ ("second", Sample.order_created) :: after ->
              last_declared "OrderCreated" after = None -> key' = "second".
Proof.
  eexists _, _. split; [by vm_compute|].
  eapply (registry_complete Sample.schema
           (spec_messages_dict Sample.orders_twice)
           (_spec_asjson (spec_value Sample.dataclass Sample.orders_twice))
           ∅ _ _ "second" Sample.order_created "OrderCreated");
    [by vm_compute|repeat constructor|done|by eexists].
Defined.

(** C5, as the specification has it, fails on a message with a content
    type: the serialized message has a [contentType] and the compiled one
    has not. *)
Lemma fallback_drops_content_type :
  Message_payload Sample.order_inline = Some "OrderCreated"
  /\ Message_name Sample.order_inline = None
  /\ dict_get "contentType"
       (dict_of (_spec_asjson
                   (message_value Sample.dataclass Sample.order_inline)))
     = Some (VStr "application/json")
  /\ exists doc compiled,
       Sample.compile Sample.orders_inline = Ok doc
       /\ at_path ["channels"; "orders"; "subscribe"; "message"] doc
          = Some (VDict compiled)
       /\ dict_get "contentType" compiled = None.
Proof.
  split_and!; [done|done|by vm_compute|].
  eexists _, _. split_and!; [by vm_compute|by vm_compute|by vm_compute].
Qed.

Lemma fallback_correct_witness :
  wf_spec Sample.orders_inline
  /\ exists doc,
       spec_asjson Sample.schema Sample.dataclass Sample.orders_inline
       = Ok doc
       /\ exists schema compiled,
            Sample.schema "OrderCreated" = Ok schema
            /\ at_path ["channels"; "orders"; "subscribe"; "message"] doc
               = Some (VDict compiled)
            /\ dict_get "payload" compiled = Some schema
            /\ dict_get "$ref" compiled = None
            /\ dict_get "contentType" compiled = None
            /\ forall key, key <> "payload" -> key <> "contentType" ->
                 dict_get key compiled
                 = dict_get key
                     (dict_of (_spec_asjson
                                 (message_value Sample.dataclass
                                    Sample.order_inline))).
Proof.
  split; [solve_wf|].
  eexists. split; [by vm_compute|].
  eapply (fallback_correct Sample.schema Sample.dataclass Sample.orders_inline
           _ "orders"
           (Sample.channel "orders"
              (Some (Sample.operation (Some Sample.order_inline))) None)
           "subscribe" (Sample.operation (Some Sample.order_inline))
           Sample.order_inline "OrderCreated");
    [solve_wf|by vm_compute|repeat constructor|repeat constructor
    |done|done|done].
Defined.

Lemma last_writer_wins_witness :
  exists doc,
    spec_asjson Sample.schema Sample.dataclass Sample.orders_twice = Ok doc
    /\ at_path ["channels"; "orders"; "publish"; "message"] doc
       = Some (VDict [("$ref", VStr "#/components/messages/second")]).
Proof.
  destruct orders_twice_ready as (Hwf & Hm & Hs).
  by apply (last_writer_wins Sample.schema Sample.dataclass
              Sample.orders_twice [("first", Sample.order_created)]
              "second" Sample.order_created [] "OrderCreated" "orders"
              (Sample.channel "orders" None
                 (Some (Sample.operation (Some Sample.order_created))))
              "publish" (Sample.operation (Some Sample.order_created))
              Sample.order_created);
    [..|repeat constructor; by eexists| |
     |repeat constructor|repeat constructor| |].
Defined.

(** ** Further properties of the generic serializer *)

Section SerializerShape.
Context {descriptor : Type}.
Implicit Types (v : value descriptor).
Implicit Types (fields items : list (string * value descriptor)).

Lemma document_list (l : list (value descriptor)) :
  document (VList l) <-> Forall document l.
Proof.
  cbn [document]. induction l as [|x l IH]; [by split; [constructor|]|].
  rewrite Forall_cons. by rewrite IH.
Qed.

Lemma document_dict items :
  document (VDict items)
  <-> NoDup items.*1 /\ Forall (fun entry => document entry.2) items.
Proof.
  cbn [document]. apply and_iff_compat_l.
  induction items as [|x l IH]; [by split; [constructor|]|].
  rewrite Forall_cons. by rewrite IH.
Qed.

Lemma python_value_list (l : list (value descriptor)) :
  python_value (VList l) <-> Forall python_value l.
Proof.
  cbn [python_value]. induction l as [|x l IH]; [by split; [constructor|]|].
  rewrite Forall_cons. by rewrite IH.
Qed.

Lemma python_value_set (l : list (value descriptor)) :
  python_value (VSet l) <-> Forall python_value l.
Proof.
  cbn [python_value]. induction l as [|x l IH]; [by split; [constructor|]|].
  rewrite Forall_cons. by rewrite IH.
Qed.

Lemma python_value_dict items :
  python_value (VDict items)
  <-> NoDup items.*1 /\ Forall (fun entry => python_value entry.2) items.
Proof.
  cbn [python_value]. apply and_iff_compat_l.
  induction items as [|x l IH]; [by split; [constructor|]|].
  rewrite Forall_cons. by rewrite IH.
Qed.

Lemma python_value_data fields :
  python_value (VData fields)
  <-> Forall (fun field => python_value field.2) fields.
Proof.
  cbn [python_value].
  induction fields as [|x l IH]; [by split; [constructor|]|].
  rewrite Forall_cons. by rewrite IH.
Qed.

Lemma dict_set_Forall (Q : string * value descriptor -> Prop) k x items :
  Forall Q items -> Q (k, x) -> Forall Q (dict_set k x items).
Proof.
  intros H Hx. induction H as [|[k' x'] items Hk' Hitems IH]; csimpl.
  - by constructor.
  - case_decide; constructor; done.
Qed.

Lemma fields_asjson_Forall (asjson : value descriptor -> value descriptor)
    (Q : value descriptor -> Prop) fields json_value :
  Forall (fun entry => Q entry.2) json_value ->
  Forall (fun field => Q (asjson field.2)) fields ->
  Forall (fun entry => Q entry.2) (fields_asjson asjson fields json_value).
Proof.
  intros Hacc Hf. revert json_value Hacc.
  induction Hf as [|[name x] fields Hx _ IH]; intros json_value Hacc; [done|].
  csimpl. apply IH. destruct (kept (asjson x)); [|done].
  by apply dict_set_Forall.
Qed.

Lemma fields_asjson_kept (asjson : value descriptor -> value descriptor)
    fields json_value :
  NoDup (json_value.*1 ++ document_keys fields) ->
  fields_asjson asjson fields json_value
  = json_value ++ kept_fields asjson fields.
Proof.
  unfold document_keys, kept_fields. revert json_value.
  induction fields as [|[name x] fields IH]; intros json_value; csimpl.
  - intros _. by rewrite app_nil_r.
  - intros H. apply NoDup_app in H as (Hj & Hdisj & [Hk Hi]%NoDup_cons).
    destruct (kept (asjson x)).
    + rewrite dict_set_fresh by (intros Hin; by apply (Hdisj _ Hin); left).
      rewrite IH.
      * by rewrite <- app_assoc.
      * rewrite fmap_app. csimpl. rewrite <- app_assoc. csimpl.
        apply NoDup_app. split_and!; [done| |by apply NoDup_cons].
        intros k' Hk' [->|Hin]%elem_of_cons.
        -- by apply (Hdisj _ Hk'); left.
        -- by apply (Hdisj _ Hk'); right.
    + apply IH. apply NoDup_app. split_and!; [done| |done].
      intros k' Hk' Hin. by apply (Hdisj _ Hk'); right.
Qed.

Lemma document_fixed v : document v -> _spec_asjson v = v.
Proof.
  induction v as [|b|n|s|u IH|l IH|items IH|fields IH|t|l IH]
    using value_nested_ind; try done.
  - intros Hl%document_list. cbn [_spec_asjson]. f_equal.
    induction IH as [|x l Hx _ IHl]; [done|].
    apply Forall_cons in Hl as [? ?]. csimpl. by rewrite Hx, IHl.
  - intros [Hd Hi]%document_dict. cbn [_spec_asjson].
    rewrite dict_asjson_distinct by done. csimpl. f_equal. clear Hd.
    induction IH as [|[k x] l Hx _ IHl]; [done|].
    apply Forall_cons in Hi as [? ?]. csimpl. cbn [snd] in Hx.
    by rewrite Hx, IHl.
Qed.

Lemma asjson_document v : python_value v -> document (_spec_asjson v).
Proof.
  induction v as [|b|n|s|u IH|l IH|items IH|fields IH|t|l IH]
    using value_nested_ind; try done.
  - intros Hl%python_value_list. cbn [_spec_asjson]. apply document_list.
    induction IH as [|x l Hx _ IHl]; [constructor|].
    apply Forall_cons in Hl as [? ?]. csimpl. constructor; auto.
  - intros [Hd Hi]%python_value_dict. cbn [_spec_asjson].
    rewrite dict_asjson_distinct by done. csimpl. apply document_dict. split.
    + by rewrite <- list_fmap_compose.
    + clear Hd. induction IH as [|[k x] l Hx _ IHl]; [constructor|].
      apply Forall_cons in Hi as [? ?]. csimpl. constructor; auto.
  - intros Hf%python_value_data. cbn [_spec_asjson]. apply document_dict.
    split; [apply fields_asjson_NoDup, NoDup_nil_2|].
    apply fields_asjson_Forall; [constructor|].
    induction IH as [|[k x] l Hx _ IHl]; [constructor|].
    apply Forall_cons in Hf as [? ?]. constructor; auto.
  - intros Hl%python_value_set. cbn [_spec_asjson]. apply document_list.
    induction IH as [|x l Hx _ IHl]; [constructor|].
    apply Forall_cons in Hl as [? ?]. csimpl. constructor; auto.
Qed.

(** X1 (field order).  A record whose fields have distinct document keys
    serializes to exactly its kept fields, each under its camelCase name, in
    the order of declaration. *)
Theorem record_asjson_kept_fields fields :
  NoDup (document_keys fields) ->
  _spec_asjson (VData fields) = VDict (kept_fields _spec_asjson fields).
Proof.
  intros H. cbn [_spec_asjson]. by rewrite fields_asjson_kept.
Qed.

(** X2 (no null entry).  Every entry of a serialized record is the
    serialized value of one of its fields, under that field's camelCase name,
    and is neither null nor the empty string. *)
Theorem record_entries_kept fields k y :
  (k, y) ∈ dict_of (_spec_asjson (VData fields)) ->
  y <> VNone /\ y <> VStr ""
  /\ exists name x,
       (name, x) ∈ fields /\ as_camel_case name = k /\ y = _spec_asjson x.
Proof.
  cbn [_spec_asjson dict_of]. intros Hin.
  apply dict_get_elem in Hin; [|apply fields_asjson_NoDup, NoDup_nil_2].
  rewrite fields_asjson_get in Hin.
  destruct (last_kept _ k fields) as [y'|] eqn:Hl; [|done].
  injection Hin as ->.
  apply last_kept_inv in Hl as (name & x & ? & ? & ? & Hk).
  split_and!; [by intros ->|by intros ->|eauto].
Qed.

(** X3 (document shape).  The serializer turns a Python value whose dicts
    are keyed by strings into a document value: no dataclass, no
    enumeration member and no set is left in it, a set having become a
    sequence, and every mapping in it has one entry per key.  The keys of
    a dict are not serialized, so that the premise on them is needed. *)
Theorem asjson_is_document v : python_value v -> document (_spec_asjson v).
Proof. apply asjson_document. Qed.

(** X4 (documents are fixed).  Serializing a document value gives it back
    unchanged: null and empty entries of mappings and sequences stay. *)
Theorem asjson_document_unchanged v : document v -> _spec_asjson v = v.
Proof. apply document_fixed. Qed.

(** X5 (idempotence).  Serializing twice is serializing once. *)
Theorem asjson_idempotent v :
  python_value v -> _spec_asjson (_spec_asjson v) = _spec_asjson v.
Proof. intros H. by apply document_fixed, asjson_document. Qed.

End SerializerShape.

Lemma record_asjson_kept_fields_witness :
  _spec_asjson (VData Sample.binding_fields)
  = VDict [("maxSize", VInt 0); ("isSecure", VBool false);
           ("tags", VList []); ("bindings", VDict [])].
Proof.
  apply (record_asjson_kept_fields Sample.binding_fields). compute_done.
Defined.

Lemma record_entries_kept_witness :
  (VInt 0 : value string) <> VNone /\ (VInt 0 : value string) <> VStr ""
  /\ exists name x,
       (name, x) ∈ Sample.binding_fields /\ as_camel_case name = "maxSize"
       /\ VInt 0 = @_spec_asjson string x.
Proof.
  apply (record_entries_kept Sample.binding_fields "maxSize" (VInt 0)).
  by vm_compute; repeat constructor.
Defined.

Lemma asjson_is_document_witness : document Cases.binding_document.
Proof.
  apply (asjson_is_document Cases.binding).
  cbn. repeat split; compute_done.
Defined.

Lemma asjson_document_unchanged_witness :
  _spec_asjson Cases.binding_document = Cases.binding_document.
Proof.
  apply (asjson_document_unchanged Cases.binding_document).
  cbn. repeat split; compute_done.
Defined.

Lemma asjson_idempotent_witness :
  _spec_asjson (_spec_asjson Cases.binding) = _spec_asjson Cases.binding.
Proof.
  apply (asjson_idempotent Cases.binding).
  cbn. repeat split; compute_done.
Defined.

(** ** Further properties of the compiler *)

Section CompilerFrame.
Context {descriptor : Type}.
Variable type_as_jsonschema : descriptor -> result (value descriptor).
Variable class_fields : descriptor -> option (list (string * value descriptor)).
Implicit Types (m : Message descriptor) (o : Operation descriptor).
Implicit Types (c : Channel descriptor) (spec : Specification descriptor).
Implicit Types (reg : gmap string string).
Implicit Types (d : list (string * value descriptor)).

Lemma Ok_inj {A : Type} (a b : A) : Ok a = Ok b -> a = b.
Proof. congruence. Qed.

Lemma VDict_inj d d' : @VDict descriptor d = VDict d' -> d = d'.
Proof. congruence. Qed.

Lemma dict_set_keys_Some d k (x y : value descriptor) :
  dict_get k d = Some y -> (dict_set k x d).*1 = d.*1.
Proof.
  intros H. apply dict_set_keys_present.
  destruct (decide (k ∈ d.*1)) as [|Hn]; [done|].
  apply dict_get_None in Hn. congruence.
Qed.

Lemma set_operation_message_inv operation_dict
    (operation : option (Operation descriptor)) reg operation_dict' :
  set_operation_message type_as_jsonschema operation_dict operation reg
  = Ok operation_dict' ->
  exists d d' message,
    operation_dict = VDict d /\ operation_dict' = VDict d'
    /\ dict_get "message" d = Some message
    /\ d'.*1 = d.*1
    /\ forall k, k <> "message" -> dict_get k d' = dict_get k d.
Proof.
  unfold set_operation_message.
  destruct operation_dict as [| | | | | |d| | |]; try done.
  cbn [getitem]. destruct (dict_get "message" d) as [message|] eqn:Hm; [|done].
  cbn [mbind result_bind].
  destruct (pop message "contentType") as [message'|]; [|done].
  cbn [mbind result_bind setitem].
  destruct (_ ≫= _) as [key|].
  - intros [= <-]. exists d; eexists; exists message; split_and!; [done..| |].
    + rewrite dict_set_set. by apply (dict_set_keys_Some _ _ _ message).
    + intros k Hk. by rewrite !dict_get_set_ne.
  - destruct (_ ≫= _) as [t|].
    + destruct (type_as_jsonschema t) as [schema|]; [|done].
      cbn [mbind result_bind getitem]. rewrite dict_get_set_eq.
      cbn [mbind result_bind].
      destruct (setitem message' "payload" schema) as [message''|]; [|done].
      cbn [mbind result_bind]. intros [= <-].
      exists d; eexists; exists message; split_and!; [done..| |].
      * rewrite dict_set_set. by apply (dict_set_keys_Some _ _ _ message).
      * intros k Hk. by rewrite !dict_get_set_ne.
    + intros [= <-]. exists d; eexists; exists message; split_and!; [done..| |].
      * by apply (dict_set_keys_Some _ _ _ message).
      * intros k Hk. by rewrite dict_get_set_ne.
Qed.

(** X6 (operation frame).  When [set_operation_message] returns, the
    operation mapping had a [message] entry, and it comes back with the same
    keys in the same order and with every entry other than [message]
    unchanged. *)
Theorem set_operation_message_frame operation_dict
    (operation : option (Operation descriptor)) reg operation_dict' :
  set_operation_message type_as_jsonschema operation_dict operation reg
  = Ok operation_dict' ->
  exists d d',
    operation_dict = VDict d /\ operation_dict' = VDict d'
    /\ is_Some (dict_get "message" d)
    /\ d'.*1 = d.*1
    /\ forall k, k <> "message" -> dict_get k d' = dict_get k d.
Proof.
  intros (d & d' & message & ? & ? & ? & ? & ?)%set_operation_message_inv.
  exists d, d'. split_and!; eauto.
Qed.

Lemma set_component_payload_keys d message_name schema
    (json_spec : value descriptor) :
  set_component_payload (VDict d) message_name schema = Ok json_spec ->
  exists components components',
    dict_get "components" d = Some components
    /\ json_spec = VDict (dict_set "components" components' d).
Proof.
  unfold set_component_payload. cbn [getitem setitem mbind result_bind].
  destruct (dict_get "components" d) as [components|]; [|done].
  cbn [mbind result_bind].
  destruct (getitem components "messages") as [messages|]; [|done].
  cbn [mbind result_bind].
  destruct (getitem messages message_name) as [message|]; [|done].
  cbn [mbind result_bind].
  destruct (setitem message "payload" schema) as [message'|]; [|done].
  cbn [mbind result_bind].
  destruct (setitem messages message_name message') as [messages'|]; [|done].
  cbn [mbind result_bind].
  destruct (setitem components "messages" messages') as [components'|];
    [|done].
  cbn [mbind result_bind]. intros [= <-]. eauto.
Qed.

Lemma messages_loop_frame (items : list (string * Message descriptor)) d reg0
    (json_spec : value descriptor) reg :
  messages_loop type_as_jsonschema items (VDict d) reg0 = Ok (json_spec, reg) ->
  exists d', json_spec = VDict d' /\ d'.*1 = d.*1
    /\ forall k, k <> "components" -> dict_get k d' = dict_get k d.
Proof.
  revert d reg0.
  induction items as [|[message_name message_type] items IH]; intros d reg0.
  - intros [= <- <-]. by exists d.
  - cbn [messages_loop].
    destruct (Message_payload message_type) as [t|]; [|by apply IH].
    destruct (type_as_jsonschema t) as [schema|]; [|done].
    cbn [mbind result_bind].
    destruct (set_component_payload _ _ _) as [json_spec'|] eqn:Hset;
      [|done].
    cbn [mbind result_bind].
    apply set_component_payload_keys in Hset as (x & x' & Hx & ->).
    intros (d' & -> & Hk & Hd')%IH. exists d'. split_and!; [done| |].
    + rewrite Hk. by apply (dict_set_keys_Some _ _ _ x).
    + intros k Hne. rewrite Hd' by done. by apply dict_get_set_ne.
Qed.

(** X7 (document frame).  The compiled document has the top-level keys of
    the serialized specification, in the same order, and every entry other
    than [servers], [channels] and [components] is the serialized one. *)
Theorem spec_asjson_frame spec doc :
  spec_asjson type_as_jsonschema class_fields spec = Ok doc ->
  exists d,
    doc = VDict d
    /\ d.*1 = (dict_of (_spec_asjson (spec_value class_fields spec))).*1
    /\ forall k, k <> "servers" -> k <> "channels" -> k <> "components" ->
         dict_get k d
         = dict_get k (dict_of (_spec_asjson (spec_value class_fields spec))).
Proof.
  unfold spec_asjson. rewrite spec_asjson_dict.
  generalize (dict_of (_spec_asjson (spec_value class_fields spec))).
  intros d0.
  destruct (messages_loop _ _ _ _) as [[json_spec reg]|] eqn:Hloop; [|done].
  cbn [mbind result_bind].
  apply messages_loop_frame in Hloop as (d1 & -> & Hk1 & Hd1).
  cbn [getitem].
  destruct (dict_get "servers" d1) as [servers|] eqn:Hs; [|done].
  cbn [mbind result_bind].
  destruct (items_of servers) as [servers'|]; [|done].
  cbn [mbind result_bind].
  destruct (servers_loop servers') as [servers''|]; [|done].
  cbn [mbind result_bind setitem getitem].
  destruct (dict_get "channels" _) as [channels|] eqn:Hc; [|done].
  cbn [mbind result_bind].
  destruct (items_of channels) as [channel_dicts|]; [|done].
  cbn [mbind result_bind].
  destruct (channels_loop _ _ _ _) as [channel_dicts'|]; [|done].
  cbn [mbind result_bind]. intros [= <-]. eexists. split_and!; [done| |].
  - rewrite (dict_set_keys_Some _ _ _ channels) by done.
    by rewrite (dict_set_keys_Some _ _ _ servers).
  - intros k ? ? ?. rewrite !dict_get_set_ne by done. by apply Hd1.
Qed.

(** X8 (sound name to key map).  A name that the loop over the components
    table adds to the map is non-empty and is declared by an entry with a
    payload, and it is bound to the key of such an entry. *)
Theorem registry_sound (items : list (string * Message descriptor))
    json_spec0 json_spec reg name key :
  messages_loop type_as_jsonschema items json_spec0 ∅ = Ok (json_spec, reg) ->
  reg !! name = Some key ->
  name <> ""
  /\ exists m,
       (key, m) ∈ items /\ Message_name m = Some name
       /\ is_Some (Message_payload m).
Proof.
  intros Hloop Hreg.
  rewrite (messages_loop_registry _ _ _ _ _ _ Hloop name) in Hreg.
  rewrite lookup_empty in Hreg.
  destruct (last_declared name items) as [key'|] eqn:Hl; [|done].
  injection Hreg as ->.
  apply last_declared_elem in Hl as (m & Hin & Hp & Hn).
  unfold nonempty in Hn. destruct (Message_name m) as [n|] eqn:Hm; [|done].
  destruct (String.eqb n "") eqn:E; [done|]. injection Hn as ->.
  apply String.eqb_neq in E. split; [done|]. exists m. by split_and!.
Qed.

(** *** The components table in the document *)

Lemma at_path_app (path path' : list string) (v : value descriptor) :
  at_path (path ++ path') v = at_path path v ≫= at_path path'.
Proof.
  revert v. induction path as [|k path IH]; intros v; [done|].
  cbn [app at_path]. destruct v as [| | | | | |d| | |]; try done.
  destruct (dict_get k d) as [x|]; [|done]. cbn [mbind option_bind].
  apply IH.
Qed.

Lemma spec_components_gets spec components messages :
  wf_spec spec ->
  Specification_components spec = Some components ->
  Components_messages components = Some messages ->
  dict_get "components"
    (dict_of (_spec_asjson (spec_value class_fields spec)))
  = Some (VDict (dict_of (_spec_asjson
                            (components_value class_fields components))))
  /\ dict_get "messages"
       (dict_of (_spec_asjson (components_value class_fields components)))
     = Some (VDict
               ((fun kv =>
                   (kv.1, _spec_asjson (message_value class_fields kv.2)))
                  <$> messages))
  /\ NoDup messages.*1.
Proof.
  intros (Hd & _ & _ & _ & Hcomp) Ec Em. rewrite Ec in Hcomp.
  destruct Hcomp as [Hdc Hnd]. rewrite Em in Hnd. cbn [from_option] in Hnd.
  split_and!; [| |done].
  - unfold spec_value. cbn [_spec_asjson dict_of].
    erewrite (record_get _ _ _ "components");
      [|reflexivity|exact Hd|right; right; left].
    rewrite Ec. reflexivity.
  - unfold components_value. cbn [_spec_asjson dict_of].
    erewrite (record_get _ _ _ "messages"); [|reflexivity|exact Hdc|left].
    rewrite Em. cbn [optional]. by rewrite mapping_asjson.
Qed.

Lemma messages_loop_entries (items : list (string * Message descriptor))
    d components messages reg0 (json_spec : value descriptor) reg :
  NoDup items.*1 ->
  dict_get "components" d = Some (VDict components) ->
  dict_get "messages" components = Some (VDict messages) ->
  messages_loop type_as_jsonschema items (VDict d) reg0 = Ok (json_spec, reg) ->
  exists d' components' messages',
    json_spec = VDict d'
    /\ dict_get "components" d' = Some (VDict components')
    /\ dict_get "messages" components' = Some (VDict messages')
    /\ components'.*1 = components.*1
    /\ (forall k, k <> "messages" ->
          dict_get k components' = dict_get k components)
    /\ messages'.*1 = messages.*1
    /\ (forall k, k ∉ items.*1 -> dict_get k messages' = dict_get k messages)
    /\ forall k m, (k, m) ∈ items ->
         match Message_payload m with
         | Some t =>
             exists schema entry,
               type_as_jsonschema t = Ok schema
               /\ dict_get k messages = Some (VDict entry)
               /\ dict_get k messages'
                  = Some (VDict (dict_set "payload" schema entry))
         | None => dict_get k messages' = dict_get k messages
         end.
Proof.
  revert d components messages reg0.
  induction items as [|[k0 m0] items IH];
    intros d components messages reg0 Hnd Hc Hm.
  - intros [= <- <-]. exists d, components, messages.
    split_and!; [done..|]. intros k m H. by apply elem_of_nil in H.
  - apply NoDup_cons in Hnd as [Hk0 Hnd]. cbn [messages_loop].
    destruct (Message_payload m0) as [t|] eqn:Hp.
    + destruct (type_as_jsonschema t) as [schema|] eqn:Ht; [|done].
      cbn [mbind result_bind]. unfold set_component_payload.
      cbn [getitem]. rewrite Hc. cbn [mbind result_bind getitem]. rewrite Hm.
      cbn [mbind result_bind getitem].
      destruct (dict_get k0 messages) as [entry0|] eqn:He; [|done].
      cbn [mbind result_bind].
      destruct entry0 as [| | | | | |entry| | |]; try done.
      cbn [mbind result_bind setitem].
      intros Hloop. eapply IH in Hloop; [|done|apply dict_get_set_eq..].
      destruct Hloop as (d' & c' & ms' & -> & Hc' & Hm' & Hkc & Hfc & Hkm
                         & Hout & Hin).
      exists d', c', ms'. split_and!; [done..| | | | |].
      * rewrite Hkc. by apply (dict_set_keys_Some _ _ _ (VDict messages)).
      * intros k Hk. rewrite Hfc by done. by apply dict_get_set_ne.
      * rewrite Hkm. by apply (dict_set_keys_Some _ _ _ (VDict entry)).
      * intros k [Hne Hk]%not_elem_of_cons. rewrite Hout by done.
        by apply dict_get_set_ne.
      * intros k m [E|Hkm']%elem_of_cons.
        -- injection E as -> ->. rewrite Hp. exists schema, entry.
           split_and!; [done..|]. rewrite Hout by done.
           apply dict_get_set_eq.
        -- assert (k <> k0) as Hne.
           { intros ->. apply Hk0.
             by apply (list_elem_of_fmap_2 fst _ (k0, m)). }
           specialize (Hin k m Hkm'). rewrite dict_get_set_ne in Hin by done.
           exact Hin.
    + intros Hloop. eapply IH in Hloop; [|done..].
      destruct Hloop as (d' & c' & ms' & -> & Hc' & Hm' & Hkc & Hfc & Hkm
                         & Hout & Hin).
      exists d', c', ms'. split_and!; [done..| |].
      * intros k [Hne Hk]%not_elem_of_cons. by apply Hout.
      * intros k m [E|Hkm']%elem_of_cons; [|by apply Hin].
        injection E as -> ->. rewrite Hp. by apply Hout.
Qed.

Lemma compiled_components spec doc components messages :
  wf_spec spec ->
  spec_asjson type_as_jsonschema class_fields spec = Ok doc ->
  Specification_components spec = Some components ->
  Components_messages components = Some messages ->
  exists entries,
    at_path ["components"; "messages"] doc = Some (VDict entries)
    /\ entries.*1 = messages.*1
    /\ forall k m, (k, m) ∈ messages ->
         match Message_payload m with
         | Some t =>
             exists schema,
               type_as_jsonschema t = Ok schema
               /\ dict_get k entries
                  = Some (VDict
                            (dict_set "payload" schema
                               (dict_of (_spec_asjson
                                           (message_value class_fields m)))))
         | None =>
             dict_get k entries
             = Some (_spec_asjson (message_value class_fields m))
         end.
Proof.
  intros Hwf Hdoc Ec Em.
  destruct (spec_components_gets _ _ _ Hwf Ec Em) as (Hc & Hm & Hnd).
  rewrite spec_asjson_eq in Hdoc by done.
  destruct (messages_loop _ _ _ _) as [[json_spec reg]|] eqn:Hloop; [|done].
  cbn [mbind result_bind] in Hdoc.
  destruct (compiled_channels _ _ _ _) as [cds|]; [|done].
  injection Hdoc as <-.
  rewrite spec_asjson_dict in Hloop. unfold spec_messages_dict in Hloop.
  rewrite Ec, Em in Hloop.
  eapply messages_loop_entries in Hloop; [|done..].
  destruct Hloop as (d' & c' & ms' & -> & Hc' & Hm' & _ & _ & Hkm & _ & Hin).
  assert (Hget : forall k m, (k, m) ∈ messages ->
    dict_get k ((fun kv =>
                   (kv.1, _spec_asjson (message_value class_fields kv.2)))
                  <$> messages)
    = Some (_spec_asjson (message_value class_fields m))).
  { intros k m Hkm'. apply dict_get_elem.
    - by rewrite <- list_fmap_compose.
    - by apply (list_elem_of_fmap_2
        (fun kv => (kv.1, _spec_asjson (message_value class_fields kv.2)))
        _ (k, m)). }
  exists ms'. split_and!.
  - cbn [at_path dict_of]. rewrite !dict_get_set_ne by done. rewrite Hc'.
    cbn [mbind option_bind]. rewrite Hm'. done.
  - rewrite Hkm. by rewrite <- list_fmap_compose.
  - intros k m Hkm'. specialize (Hin k m Hkm'). rewrite (Hget k m Hkm') in Hin.
    destruct (Message_payload m) as [t|]; [|done].
    destruct Hin as (schema & entry & Ht & [= <-] & Hk). by exists schema.
Qed.

Lemma component_payload_expanded_aux spec doc key m t :
  wf_spec spec ->
  spec_asjson type_as_jsonschema class_fields spec = Ok doc ->
  (key, m) ∈ spec_messages_dict spec ->
  Message_payload m = Some t ->
  exists schema entry,
    type_as_jsonschema t = Ok schema
    /\ at_path ["components"; "messages"; key] doc = Some (VDict entry)
    /\ dict_get "payload" entry = Some schema
    /\ forall k, k <> "payload" ->
         dict_get k entry
         = dict_get k (dict_of (_spec_asjson (message_value class_fields m))).
Proof.
  intros Hwf Hdoc Hin Hp. unfold spec_messages_dict in Hin.
  destruct (Specification_components spec) as [components|] eqn:Ec;
    [|by apply elem_of_nil in Hin].
  destruct (Components_messages components) as [messages|] eqn:Em;
    [|by apply elem_of_nil in Hin].
  destruct (compiled_components _ _ _ _ Hwf Hdoc Ec Em)
    as (entries & Hat & _ & Hget).
  specialize (Hget key m Hin). rewrite Hp in Hget.
  destruct Hget as (schema & Ht & Hget). eexists schema, _.
  split_and!; [done| |apply dict_get_set_eq|].
  - rewrite (at_path_app ["components"; "messages"] [key]), Hat.
    cbn [mbind option_bind at_path]. by rewrite Hget.
  - intros k Hk. by apply dict_get_set_ne.
Qed.

(** X9 (component payloads).  In the compiled document every entry of the
    components table with a payload has the generated schema under
    [payload] and every other key as serialized, its [contentType]
    included. *)
Theorem component_payload_expanded spec doc key m t :
  wf_spec spec ->
  spec_asjson type_as_jsonschema class_fields spec = Ok doc ->
  (key, m) ∈ spec_messages_dict spec ->
  Message_payload m = Some t ->
  exists schema entry,
    type_as_jsonschema t = Ok schema
    /\ at_path ["components"; "messages"; key] doc = Some (VDict entry)
    /\ dict_get "payload" entry = Some schema
    /\ forall k, k <> "payload" ->
         dict_get k entry
         = dict_get k (dict_of (_spec_asjson (message_value class_fields m))).
Proof. apply component_payload_expanded_aux. Qed.

(** X10 (components table kept).  The compiled document has the entries of
    the components table under their keys, in the order of the table, and an
    entry without payload is the serialized message, unchanged. *)
Theorem components_table_kept spec doc components messages :
  wf_spec spec ->
  spec_asjson type_as_jsonschema class_fields spec = Ok doc ->
  Specification_components spec = Some components ->
  Components_messages components = Some messages ->
  exists entries,
    at_path ["components"; "messages"] doc = Some (VDict entries)
    /\ entries.*1 = messages.*1
    /\ forall key m, (key, m) ∈ messages -> Message_payload m = None ->
         dict_get key entries
         = Some (_spec_asjson (message_value class_fields m)).
Proof.
  intros Hwf Hdoc Ec Em.
  destruct (compiled_components _ _ _ _ Hwf Hdoc Ec Em)
    as (entries & Hat & Hk & Hget).
  exists entries. split_and!; [done..|].
  intros key m Hin Hp. specialize (Hget key m Hin). by rewrite Hp in Hget.
Qed.

(** *** The operations in the document *)

Lemma compiled_operation_at spec doc k c side o :
  wf_spec spec ->
  spec_asjson type_as_jsonschema class_fields spec = Ok doc ->
  (k, c) ∈ Specification_channels spec ->
  (side, Some o) ∈ channel_operations c ->
  exists reg channel_dict operation_dict,
    (forall name, reg !! name = last_declared name (spec_messages_dict spec))
    /\ compiled_channel type_as_jsonschema class_fields reg c
       = Ok (VDict channel_dict)
    /\ at_path ["channels"; k] doc = Some (VDict channel_dict)
    /\ compiled_operation type_as_jsonschema class_fields reg o
       = Ok operation_dict
    /\ dict_get side channel_dict = Some operation_dict.
Proof.
  intros Hwf Hdoc Hc Ho. rewrite spec_asjson_eq in Hdoc by done.
  destruct (messages_loop _ _ _ _) as [[json_spec reg]|] eqn:Hloop; [|done].
  cbn [mbind result_bind] in Hdoc.
  destruct (compiled_channels _ _ _ _) as [cds|] eqn:Hcds; [|done].
  injection Hdoc as <-.
  pose proof (messages_loop_registry _ _ _ _ _ _ Hloop) as Hreg.
  destruct (compiled_channels_get _ _ _ _ _ k c Hcds) as (cd & Hcd & Hget);
    [apply Hwf|done|].
  destruct (compiled_channel_inv _ _ _ _ _ Hcd) as (d & -> & _ & Hops).
  destruct (Hops _ _ Ho) as (od & Hod & Hside).
  exists reg, d, od. split_and!; [|done| |done..].
  - intros name. rewrite Hreg, lookup_empty.
    by destruct (last_declared name _).
  - cbn [at_path]. rewrite dict_get_set_eq. cbn [mbind option_bind].
    by rewrite Hget.
Qed.

Lemma message_payload_get m :
  wf_message m ->
  dict_get "payload" (dict_of (_spec_asjson (message_value class_fields m)))
  = (fun t => _spec_asjson (class_value class_fields t))
      <$> Message_payload m.
Proof.
  intros [Hd _]. unfold message_value. cbn [_spec_asjson dict_of].
  erewrite (record_get _ _ _ "payload");
    [|reflexivity|exact Hd|right; right; left].
  destruct (Message_payload m) as [t|]; [|done].
  cbn [optional fmap option_fmap option_map].
  by rewrite class_value_kept.
Qed.

(** X11 (message without payload).  When the message of an operation has no
    payload and no name that the components table resolves, the compiled
    message is the serialized one without its [contentType]: every other key
    is kept, and there is neither [payload] nor [$ref]. *)
Theorem unresolved_message_kept spec doc k c side o m :
  wf_spec spec ->
  spec_asjson type_as_jsonschema class_fields spec = Ok doc ->
  (k, c) ∈ Specification_channels spec ->
  (side, Some o) ∈ channel_operations c ->
  Operation_message o = Some m ->
  Message_payload m = None ->
  resolved spec m = None ->
  exists compiled,
    at_path ["channels"; k; side; "message"] doc = Some (VDict compiled)
    /\ dict_get "contentType" compiled = None
    /\ dict_get "payload" compiled = None
    /\ dict_get "$ref" compiled = None
    /\ forall key, key <> "contentType" ->
         dict_get key compiled
         = dict_get key
             (dict_of (_spec_asjson (message_value class_fields m))).
Proof.
  intros Hwf Hdoc Hc Ho Hm Hp Hr.
  destruct (compiled_message_at _ _ _ _ _ _ _ _ _ Hwf Hdoc Hc Ho Hm)
    as (reg & message & Hreg & Hmsg & Hat).
  pose proof (wf_message_of _ _ _ _ _ _ Hwf Hc Ho Hm) as Hwm.
  unfold compiled_message in Hmsg.
  assert (nonempty (Message_name m) ≫= (reg !!.) = None) as Hnone.
  { unfold resolved in Hr.
    destruct (nonempty (Message_name m)) as [name|]; [|done].
    cbn [mbind option_bind] in *. by rewrite Hreg. }
  rewrite Hnone, Hp in Hmsg. apply Ok_inj in Hmsg as <-.
  eexists. split_and!; [exact Hat|..].
  - apply dict_get_pop_eq, message_NoDup.
  - rewrite dict_get_pop_ne by done.
    rewrite message_payload_get by done. by rewrite Hp.
  - rewrite dict_get_pop_ne by done. by apply message_no_ref.
  - intros key ?. by rewrite dict_get_pop_ne.
Qed.


(** *** Servers and channels in the document *)

(** X13 (server entries).  Every server of the specification is in the
    compiled document under its key, without [name] and with every other
    key of the serialized server. *)
Theorem server_entry_kept spec doc k (s : Server descriptor) :
  wf_spec spec ->
  spec_asjson type_as_jsonschema class_fields spec = Ok doc ->
  (k, s) ∈ Specification_servers spec ->
  exists entry,
    at_path ["servers"; k] doc = Some (VDict entry)
    /\ dict_get "name" entry = None
    /\ forall key, key <> "name" ->
         dict_get key entry
         = dict_get key (dict_of (_spec_asjson (server_value s))).
Proof.
  intros Hwf Hdoc Hin. rewrite spec_asjson_eq in Hdoc by done.
  destruct (messages_loop _ _ _ _) as [[json_spec reg]|]; [|done].
  cbn [mbind result_bind] in Hdoc.
  destruct (compiled_channels _ _ _ _) as [cds|]; [|done].
  apply Ok_inj in Hdoc as <-.
  exists (dict_pop "name" (dict_of (_spec_asjson (server_value s)))).
  split_and!.
  - cbn [at_path]. rewrite dict_get_set_ne, dict_get_set_eq by done.
    cbn [mbind option_bind]. unfold compiled_servers.
    erewrite dict_get_elem; [done| |].
    + rewrite <- list_fmap_compose. apply Hwf.
    + by apply (list_elem_of_fmap_2
        (fun ks => (ks.1, VDict (dict_pop "name"
                                   (dict_of (_spec_asjson
                                               (server_value ks.2))))))
        _ (k, s)).
  - apply dict_get_pop_eq, server_NoDup.
  - intros key ?. by apply dict_get_pop_ne.
Qed.



(** X15 (operation entries).  A compiled operation has every key of the
    serialized operation other than [message] unchanged. *)
Theorem operation_entry_kept spec doc k c side o :
  wf_spec spec ->
  spec_asjson type_as_jsonschema class_fields spec = Ok doc ->
  (k, c) ∈ Specification_channels spec ->
  (side, Some o) ∈ channel_operations c ->
  exists entry,
    at_path ["channels"; k; side] doc = Some (VDict entry)
    /\ is_Some (dict_get "message" entry)
    /\ forall key, key <> "message" ->
         dict_get key entry
         = dict_get key
             (dict_of (_spec_asjson (operation_value class_fields o))).
Proof.
  intros Hwf Hdoc Hc Ho.
  destruct (compiled_operation_at _ _ _ _ _ _ Hwf Hdoc Hc Ho)
    as (reg & cd & od & _ & _ & Hat & Hod & Hside).
  unfold compiled_operation in Hod.
  destruct (Operation_message o) as [m|]; [|done].
  destruct (compiled_message _ _ _ _) as [message|]; [|done].
  apply Ok_inj in Hod as <-. eexists. split_and!.
  - rewrite (at_path_app ["channels"; k] [side]), Hat.
    cbn [mbind option_bind at_path]. by rewrite Hside.
  - rewrite dict_get_set_eq. eauto.
  - intros key ?. by apply dict_get_set_ne.
Qed.

(** *** When the compiler returns and what it raises *)

Lemma messages_loop_schemas (items : list (string * Message descriptor))
    json_spec0 reg0 (r : value descriptor * gmap string string) :
  messages_loop type_as_jsonschema items json_spec0 reg0 = Ok r ->
  Forall (fun t => is_Ok (type_as_jsonschema t))
    (omap Message_payload items.*2).
Proof.
  revert json_spec0 reg0.
  induction items as [|[k m] items IH]; intros json_spec0 reg0; [constructor|].
  cbn [messages_loop]. csimpl.
  destruct (Message_payload m) as [t|]; [|by apply IH].
  destruct (type_as_jsonschema t) as [schema|] eqn:Ht; [|done].
  cbn [mbind result_bind].
  destruct (set_component_payload _ _ _) as [json_spec'|]; [|done].
  cbn [mbind result_bind]. intros H%IH. constructor; [by rewrite Ht|done].
Qed.

Lemma messages_loop_raises (items : list (string * Message descriptor))
    d reg0 e :
  (exists components messages,
     dict_get "components" d = Some (VDict components)
     /\ dict_get "messages" components = Some (VDict messages)
     /\ forall k, k ∈ items.*1 ->
          exists message, dict_get k messages = Some (VDict message)) ->
  messages_loop type_as_jsonschema items (VDict d) reg0 = Raise e ->
  exists t, t ∈ omap Message_payload items.*2
    /\ type_as_jsonschema t = Raise e.
Proof.
  revert d reg0.
  induction items as [|[k0 m0] items IH];
    intros d reg0 (components & messages & Hc & Hm & Hk); [done|].
  cbn [messages_loop]. csimpl.
  destruct (Message_payload m0) as [t|].
  - destruct (type_as_jsonschema t) as [schema|e'] eqn:Ht.
    + cbn [mbind result_bind]. unfold set_component_payload.
      cbn [getitem]. rewrite Hc. cbn [mbind result_bind getitem]. rewrite Hm.
      cbn [mbind result_bind getitem].
      destruct (Hk k0) as [message ->]; [left|].
      cbn [mbind result_bind setitem]. intros Hloop.
      apply IH in Hloop as (t' & ? & ?).
      * exists t'. split; [by right|done].
      * eexists _, _. split_and!; [apply dict_get_set_eq..|].
        intros k Hin. rewrite dict_get_set. case_decide; [eauto|].
        apply Hk. by right.
    + cbn [mbind result_bind]. intros [= ->]. exists t. split; [left|done].
  - intros Hloop. apply IH in Hloop as (t' & ? & ?); [by exists t'|].
    exists components, messages. split_and!; [done..|].
    intros k Hin. apply Hk. by right.
Qed.

Lemma spec_messages_raises spec reg0 e :
  wf_spec spec ->
  messages_loop type_as_jsonschema (spec_messages_dict spec)
    (_spec_asjson (spec_value class_fields spec)) reg0 = Raise e ->
  exists t, t ∈ omap Message_payload (spec_messages_dict spec).*2
    /\ type_as_jsonschema t = Raise e.
Proof.
  intros Hwf. rewrite spec_asjson_dict. unfold spec_messages_dict.
  destruct (Specification_components spec) as [components|] eqn:Ec; [|done].
  destruct (Components_messages components) as [messages|] eqn:Em; [|done].
  destruct (spec_components_gets _ _ _ Hwf Ec Em) as (Hc & Hm & Hnd).
  apply messages_loop_raises. eexists _, _. split_and!; [done..|].
  intros k ([k' m] & -> & Hin)%list_elem_of_fmap_1.
  exists (dict_of (_spec_asjson (message_value class_fields m))).
  apply dict_get_elem.
  - by rewrite <- list_fmap_compose.
  - by apply (list_elem_of_fmap_2
      (fun kv => (kv.1, _spec_asjson (message_value class_fields kv.2)))
      _ (k', m)).
Qed.

Lemma compiled_channels_raises reg
    (channels : list (string * Channel descriptor)) e :
  compiled_channels type_as_jsonschema class_fields reg channels = Raise e ->
  exists k c side o,
    (k, c) ∈ channels /\ (side, Some o) ∈ channel_operations c
    /\ compiled_operation type_as_jsonschema class_fields reg o = Raise e.
Proof.
  induction channels as [|[k c] channels IH]; [done|].
  cbn [compiled_channels].
  destruct (compiled_channel _ _ _ c) as [cd|e'] eqn:Hcd.
  - cbn [mbind result_bind].
    destruct (compiled_channels _ _ _ _) as [cds|e'] eqn:Hcds; [done|].
    intros [= ->]. destruct IH as (k' & c' & side & o & ? & ? & ?); [done|].
    exists k', c', side, o. split_and!; [by right|done..].
  - intros [= ->]. unfold compiled_channel, put_operation in Hcd.
    destruct (Channel_subscribe c) as [o|] eqn:Hs.
    + destruct (compiled_operation _ _ _ o) as [od|e'] eqn:Ho.
      * cbn [mbind result_bind] in Hcd.
        destruct (Channel_publish c) as [o'|] eqn:Hp; [|done].
        destruct (compiled_operation _ _ _ o') as [od'|e'] eqn:Ho'; [done|].
        injection Hcd as ->. exists k, c, "publish", o'.
        split_and!; [left| |done]. unfold channel_operations.
        rewrite Hp. right; left.
      * injection Hcd as ->. exists k, c, "subscribe", o.
        split_and!; [left| |done]. unfold channel_operations.
        rewrite Hs. left.
    + cbn [mbind result_bind] in Hcd.
      destruct (Channel_publish c) as [o'|] eqn:Hp; [|done].
      destruct (compiled_operation _ _ _ o') as [od'|e'] eqn:Ho'; [done|].
      injection Hcd as ->. exists k, c, "publish", o'.
      split_and!; [left| |done]. unfold channel_operations.
      rewrite Hp. right; left.
Qed.

Lemma spec_operations_inv spec o :
  o ∈ spec_operations spec ->
  exists k c side,
    (k, c) ∈ Specification_channels spec
    /\ (side, Some o) ∈ channel_operations c.
Proof.
  unfold spec_operations. intros (c & Ho & Hc)%list_elem_of_bind.
  apply list_elem_of_fmap_1 in Hc as ([k c'] & -> & Hc).
  apply list_elem_of_omap in Ho as (oo & Ho & E). cbn [snd id] in Ho, E.
  subst oo.
  exists k, c'. unfold channel_operations.
  apply elem_of_cons in Ho as [Ho|Ho].
  { exists "subscribe". split; [done|]. rewrite <- Ho. left. }
  apply elem_of_cons in Ho as [Ho|Ho].
  { exists "publish". split; [done|]. rewrite <- Ho. right; left. }
  by apply elem_of_nil in Ho.
Qed.

Lemma compiled_message_registry spec reg m :
  (forall name, reg !! name = last_declared name (spec_messages_dict spec)) ->
  nonempty (Message_name m) ≫= (reg !!.) = resolved spec m.
Proof.
  intros Hreg. unfold resolved.
  destruct (nonempty (Message_name m)) as [name|]; [|done].
  cbn [mbind option_bind]. apply Hreg.
Qed.

(** X16 (when a document is returned).  For a well-formed specification
    the compiler returns a document exactly when every payload of the
    components table has a schema, every operation has a message, and every
    message payload that is not replaced by a reference has a schema. *)
Theorem spec_asjson_returns spec :
  wf_spec spec ->
  (exists doc, spec_asjson type_as_jsonschema class_fields spec = Ok doc)
  <-> compilable type_as_jsonschema spec.
Proof.
  intros Hwf. split.
  - intros [doc Hdoc]. split.
    + rewrite spec_asjson_eq in Hdoc by done.
      destruct (messages_loop _ _ _ _) as [r|] eqn:Hloop; [|done].
      by apply messages_loop_schemas in Hloop.
    + apply Forall_forall. intros o (k & c & side & Hc & Ho)%spec_operations_inv.
      destruct (compiled_operation_at _ _ _ _ _ _ Hwf Hdoc Hc Ho)
        as (reg & cd & od & Hreg & _ & _ & Hod & _).
      unfold compiled_operation in Hod.
      destruct (Operation_message o) as [m|]; [|done].
      exists m. split; [done|]. intros t Hr Hp.
      unfold compiled_message in Hod.
      rewrite (compiled_message_registry spec) in Hod by done.
      rewrite Hr, Hp in Hod. by destruct (type_as_jsonschema t).
  - intros [Hs Ho]. apply is_Ok_inv. rewrite spec_asjson_eq by done.
    destruct (messages_loop _ _ _ _) as [[json_spec reg]|e] eqn:Hloop.
    + cbn [mbind result_bind].
      pose proof (messages_loop_registry _ _ _ _ _ _ Hloop) as Hreg.
      destruct (compiled_channels _ _ _ _) as [cds|e] eqn:Hcds; [done|].
      apply compiled_channels_raises in Hcds
        as (k & c & side & o & Hc & Hside & Hraise).
      rewrite Forall_forall in Ho.
      destruct (Ho o (spec_operations_elem _ _ _ _ _ Hc Hside))
        as (m & Hm & Ht).
      unfold compiled_operation, compiled_message in Hraise.
      rewrite Hm in Hraise.
      rewrite (compiled_message_registry spec) in Hraise.
      2:{ intros name. rewrite Hreg, lookup_empty.
          by destruct (last_declared name _). }
      destruct (resolved spec m); [done|].
      destruct (Message_payload m) as [t|]; [|done].
      specialize (Ht t eq_refl eq_refl).
      by destruct (type_as_jsonschema t).
    + pose proof (spec_messages_total type_as_jsonschema class_fields
                    spec ∅ Hwf Hs) as Hok.
      by rewrite Hloop in Hok.
Qed.

(** X17 (what is raised).  When the compiler raises on a well-formed
    specification, it is [KeyError('message')] for an operation without
    message, or the exception that the schema generator raises on a payload
    of the specification; it raises nothing else. *)
Theorem spec_asjson_raises spec e :
  wf_spec spec ->
  spec_asjson type_as_jsonschema class_fields spec = Raise e ->
  (e = KeyError "message"
   /\ exists o, o ∈ spec_operations spec /\ Operation_message o = None)
  \/ exists t, t ∈ spec_payloads spec /\ type_as_jsonschema t = Raise e.
Proof.
  intros Hwf Hraise. rewrite spec_asjson_eq in Hraise by done.
  unfold spec_payloads. rewrite omap_app.
  destruct (messages_loop _ _ _ _) as [[json_spec reg]|e'] eqn:Hloop.
  - cbn [mbind result_bind] in Hraise.
    destruct (compiled_channels _ _ _ _) as [cds|e'] eqn:Hcds; [done|].
    injection Hraise as ->.
    apply compiled_channels_raises in Hcds
      as (k & c & side & o & Hc & Hside & Hraise).
    pose proof (spec_operations_elem _ _ _ _ _ Hc Hside) as Ho.
    unfold compiled_operation, compiled_message in Hraise.
    destruct (Operation_message o) as [m|] eqn:Hm.
    + right. destruct (nonempty (Message_name m) ≫= _); [done|].
      destruct (Message_payload m) as [t|] eqn:Hp; [|done].
      destruct (type_as_jsonschema t) as [schema|e'] eqn:Ht; [done|].
      injection Hraise as ->. exists t. split; [|done].
      apply elem_of_app. right. apply list_elem_of_omap.
      exists m. split; [|done]. apply list_elem_of_omap. by exists o.
    + left. injection Hraise as <-. split; [done|]. by exists o.
  - injection Hraise as ->. right.
    apply spec_messages_raises in Hloop as (t & ? & ?); [|done].
    exists t. split; [|done]. apply elem_of_app. by left.
Qed.

End CompilerFrame.

(** ** The further properties on the sample specifications *)

Lemma set_operation_message_frame_witness :
  exists operation_dict' d d',
    set_operation_message Sample.schema
      (_spec_asjson
         (operation_value Sample.dataclass
            (Sample.operation (Some Sample.order_inline))))
      (Some (Sample.operation (Some Sample.order_inline))) ∅
    = Ok operation_dict'
    /\ _spec_asjson
         (operation_value Sample.dataclass
            (Sample.operation (Some Sample.order_inline))) = VDict d
    /\ operation_dict' = VDict d'
    /\ is_Some (dict_get "message" d)
    /\ d'.*1 = d.*1
    /\ forall k, k <> "message" -> dict_get k d' = dict_get k d.
Proof.
  eexists. 
  assert (H : set_operation_message Sample.schema
      (_spec_asjson
         (operation_value Sample.dataclass
            (Sample.operation (Some Sample.order_inline))))
      (Some (Sample.operation (Some Sample.order_inline))) ∅ = Ok _)
    by (by vm_compute).
  destruct (set_operation_message_frame _ _ _ _ _ H) as (d & d' & ?).
  exists d, d'. by split.
Defined.

Lemma spec_asjson_frame_witness :
  exists d,
    Sample.orders_document = VDict d
    /\ d.*1 = ["servers"; "channels"; "components"; "asyncapi"]
    /\ forall k, k <> "servers" -> k <> "channels" -> k <> "components" ->
         dict_get k d
         = dict_get k
             (dict_of (_spec_asjson
                         (spec_value Sample.dataclass Sample.orders))).
Proof.
  apply (spec_asjson_frame Sample.schema Sample.dataclass Sample.orders
           Sample.orders_document).
  by vm_compute.
Defined.

Lemma registry_sound_witness :
  "OrderCreated" <> ""
  /\ exists m,
       ("second", m) ∈ spec_messages_dict Sample.orders_twice
       /\ Message_name m = Some "OrderCreated"
       /\ is_Some (Message_payload m).
Proof.
  eapply (registry_sound Sample.schema
            (spec_messages_dict Sample.orders_twice)
            (_spec_asjson (spec_value Sample.dataclass Sample.orders_twice)));
    by vm_compute.
Defined.

Lemma component_payload_expanded_witness :
  exists schema entry,
    Sample.schema "OrderCreated" = Ok schema
    /\ at_path ["components"; "messages"; "order-created"]
         Sample.orders_document = Some (VDict entry)
    /\ dict_get "payload" entry = Some schema
    /\ forall k, k <> "payload" ->
         dict_get k entry
         = dict_get k
             (dict_of (_spec_asjson
                         (message_value Sample.dataclass
                            Sample.order_created))).
Proof.
  apply (component_payload_expanded Sample.schema Sample.dataclass
           Sample.orders Sample.orders_document "order-created"
           Sample.order_created "OrderCreated");
    [solve_wf|by vm_compute|repeat constructor|done].
Defined.

Lemma components_table_kept_witness :
  exists doc entries,
    Sample.compile Sample.orders_without_payload = Ok doc
    /\ at_path ["components"; "messages"] doc = Some (VDict entries)
    /\ entries.*1 = ["order-created"]
    /\ forall key m,
         (key, m) ∈ [("order-created", Sample.order_named)] ->
         Message_payload m = None ->
         dict_get key entries
         = Some (_spec_asjson (message_value Sample.dataclass m)).
Proof.
  eexists.
  assert (H : Sample.compile Sample.orders_without_payload = Ok _)
    by (by vm_compute).
  assert (Hwf : wf_spec Sample.orders_without_payload) by solve_wf.
  destruct (components_table_kept Sample.schema Sample.dataclass
              Sample.orders_without_payload _
              {| Components_messages :=
                   Some [("order-created", Sample.order_named)];
                 Components_schemas := None;
                 Components_attrs := [] |}
              [("order-created", Sample.order_named)] Hwf H eq_refl eq_refl)
    as (entries & ?).
  exists entries. by split.
Defined.

Lemma unresolved_message_kept_witness :
  exists doc compiled,
    Sample.compile Sample.orders_without_payload = Ok doc
    /\ at_path ["channels"; "orders"; "publish"; "message"] doc
       = Some (VDict compiled)
    /\ dict_get "contentType" compiled = None
    /\ dict_get "payload" compiled = None
    /\ dict_get "$ref" compiled = None
    /\ forall key, key <> "contentType" ->
         dict_get key compiled
         = dict_get key
             (dict_of (_spec_asjson
                         (message_value Sample.dataclass
                            Sample.order_named))).
Proof.
  eexists.
  assert (H : Sample.compile Sample.orders_without_payload = Ok _)
    by (by vm_compute).
  assert (Hwf : wf_spec Sample.orders_without_payload) by solve_wf.
  destruct (unresolved_message_kept Sample.schema Sample.dataclass
              Sample.orders_without_payload _ "orders"
              (Sample.channel "orders" None
                 (Some (Sample.operation (Some Sample.order_named))))
              "publish" (Sample.operation (Some Sample.order_named))
              Sample.order_named Hwf H)
    as (compiled & ?);
    [repeat constructor|repeat constructor|done|done|by vm_compute|].
  exists compiled. by split.
Defined.


Lemma server_entry_kept_witness :
  exists entry,
    at_path ["servers"; "development"] Sample.orders_document
    = Some (VDict entry)
    /\ dict_get "name" entry = None
    /\ forall key, key <> "name" ->
         dict_get key entry
         = dict_get key (dict_of (_spec_asjson (server_value Sample.server))).
Proof.
  apply (server_entry_kept Sample.schema Sample.dataclass Sample.orders
           Sample.orders_document "development" Sample.server);
    [solve_wf|by vm_compute|repeat constructor].
Defined.


Lemma operation_entry_kept_witness :
  exists entry,
    at_path ["channels"; "orders"; "publish"] Sample.orders_document
    = Some (VDict entry)
    /\ is_Some (dict_get "message" entry)
    /\ forall key, key <> "message" ->
         dict_get key entry
         = dict_get key
             (dict_of (_spec_asjson
                         (operation_value Sample.dataclass
                            (Sample.operation
                               (Some Sample.order_created))))).
Proof.
  apply (operation_entry_kept Sample.schema Sample.dataclass Sample.orders
           Sample.orders_document "orders"
           (Sample.channel "orders" None
              (Some (Sample.operation (Some Sample.order_created))))
           "publish" (Sample.operation (Some Sample.order_created)));
    [solve_wf|by vm_compute|repeat constructor|repeat constructor].
Defined.

Lemma spec_asjson_returns_witness : compilable Sample.schema Sample.orders.
Proof.
  apply (spec_asjson_returns Sample.schema Sample.dataclass Sample.orders);
    [solve_wf|]. exists Sample.orders_document. by vm_compute.
Defined.

Lemma spec_asjson_raises_witness :
  (KeyError "message" = KeyError "message"
   /\ exists o : Operation string,
        o ∈ spec_operations Sample.orders_silent
        /\ Operation_message o = None)
  \/ exists t, t ∈ spec_payloads Sample.orders_silent
       /\ Sample.schema t = Raise (KeyError "message").
Proof.
  apply (spec_asjson_raises Sample.schema Sample.dataclass
           Sample.orders_silent); [solve_wf|by vm_compute].
Defined.

(** ** The compiled document as JSON data *)

Section CompilerJson.
Context {descriptor : Type}.
Variable type_as_jsonschema : descriptor -> result (value descriptor).
Variable class_fields : descriptor -> option (list (string * value descriptor)).
Implicit Types (v : value descriptor).
Implicit Types (d fields items : list (string * value descriptor)).
Implicit Types (m : Message descriptor) (o : Operation descriptor).
Implicit Types (c : Channel descriptor) (spec : Specification descriptor).

Lemma json_list (l : list (value descriptor)) :
  json (VList l) <-> Forall json l.
Proof.
  cbn [json]. induction l as [|x l IH]; [by split; [constructor|]|].
  rewrite Forall_cons. by rewrite IH.
Qed.

Lemma json_dict items :
  json (VDict items)
  <-> NoDup items.*1 /\ Forall (fun entry => json entry.2) items.
Proof.
  cbn [json]. apply and_iff_compat_l.
  induction items as [|x l IH]; [by split; [constructor|]|].
  rewrite Forall_cons. by rewrite IH.
Qed.

Lemma plain_list (l : list (value descriptor)) :
  plain (VList l) <-> Forall plain l.
Proof.
  cbn [plain]. induction l as [|x l IH]; [by split; [constructor|]|].
  rewrite Forall_cons. by rewrite IH.
Qed.

Lemma plain_set (l : list (value descriptor)) :
  plain (VSet l) <-> Forall plain l.
Proof.
  cbn [plain]. induction l as [|x l IH]; [by split; [constructor|]|].
  rewrite Forall_cons. by rewrite IH.
Qed.

Lemma plain_dict items :
  plain (VDict items)
  <-> NoDup items.*1 /\ Forall (fun entry => plain entry.2) items.
Proof.
  cbn [plain]. apply and_iff_compat_l.
  induction items as [|x l IH]; [by split; [constructor|]|].
  rewrite Forall_cons. by rewrite IH.
Qed.

Lemma plain_data fields :
  plain (VData fields) <-> Forall (fun field => plain field.2) fields.
Proof.
  cbn [plain]. induction fields as [|x l IH]; [by split; [constructor|]|].
  rewrite Forall_cons. by rewrite IH.
Qed.

Lemma asjson_json v : plain v -> json (_spec_asjson v).
Proof.
  induction v as [|b|n|s|u IH|l IH|items IH|fields IH|t|l IH]
    using value_nested_ind; try done.
  - intros Hl%plain_list. cbn [_spec_asjson]. apply json_list.
    induction IH as [|x l Hx _ IHl]; [constructor|].
    apply Forall_cons in Hl as [? ?]. csimpl. constructor; auto.
  - intros [Hd Hi]%plain_dict. cbn [_spec_asjson].
    rewrite dict_asjson_distinct by done. csimpl. apply json_dict. split.
    + by rewrite <- list_fmap_compose.
    + clear Hd. induction IH as [|[k x] l Hx _ IHl]; [constructor|].
      apply Forall_cons in Hi as [? ?]. csimpl. constructor; auto.
  - intros Hf%plain_data. cbn [_spec_asjson]. apply json_dict.
    split; [apply fields_asjson_NoDup, NoDup_nil_2|].
    apply fields_asjson_Forall; [constructor|].
    induction IH as [|[k x] l Hx _ IHl]; [constructor|].
    apply Forall_cons in Hf as [? ?]. constructor; auto.
  - intros Hl%plain_set. cbn [_spec_asjson]. apply json_list.
    induction IH as [|x l Hx _ IHl]; [constructor|].
    apply Forall_cons in Hl as [? ?]. csimpl. constructor; auto.
Qed.

Lemma json_dict_intro d :
  NoDup d.*1 -> (forall k y, dict_get k d = Some y -> json y) ->
  json (VDict d).
Proof.
  intros Hd H. apply json_dict. split; [done|].
  apply Forall_forall. intros [k y] Hin. apply (H k). by apply dict_get_elem.
Qed.

Lemma json_dict_get d k y : json (VDict d) -> dict_get k d = Some y -> json y.
Proof.
  intros [_ H]%json_dict Hget. rewrite Forall_forall in H.
  apply dict_get_Some_elem in Hget. apply (H _ Hget).
Qed.

(** The entries of a serialized record, by the fields they come from. *)
Lemma record_entry fields k y :
  dict_get k (fields_asjson _spec_asjson fields []) = Some y ->
  exists name x,
    (name, x) ∈ fields /\ as_camel_case name = k /\ y = _spec_asjson x
    /\ kept y = true.
Proof.
  rewrite fields_asjson_get.
  destruct (last_kept _ k fields) as [y'|] eqn:Hl; [|done].
  intros [= ->]. by apply last_kept_inv in Hl.
Qed.

Lemma record_json fields :
  plain_fields fields -> json (_spec_asjson (VData fields)).
Proof. intros H. by apply asjson_json, plain_data. Qed.

Lemma plain_fields_elem fields name x :
  plain_fields fields -> (name, x) ∈ fields -> json (_spec_asjson x).
Proof.
  intros H Hin. unfold plain_fields in H. rewrite Forall_forall in H.
  apply asjson_json, (H _ Hin).
Qed.

Lemma optional_str_json (s : option string) :
  json (@_spec_asjson descriptor (optional VStr s)).
Proof. by destruct s. Qed.

(** A serialized message is JSON data but for its payload. *)
Lemma message_entry_json m k y :
  plain_message m ->
  dict_get k (dict_of (_spec_asjson (message_value class_fields m))) = Some y ->
  (k = "payload" /\ is_Some (Message_payload m)) \/ json y.
Proof.
  intros Hp. unfold message_value. cbn [_spec_asjson dict_of].
  intros (name & x & Hin & <- & -> & Hk)%record_entry.
  rewrite !elem_of_app, !elem_of_cons, elem_of_nil in Hin.
  destruct Hin as [[[= -> ->]|[[= -> ->]|[[= -> ->]|[]]]]|Hin].
  - right. apply optional_str_json.
  - right. apply optional_str_json.
  - left. split; [done|]. by destruct (Message_payload m).
  - right. by apply (plain_fields_elem (Message_attrs m) name).
Qed.

Lemma server_json (s : Server descriptor) :
  plain_fields (Server_attrs s) ->
  json (VDict (dict_pop "name" (dict_of (_spec_asjson (server_value s))))).
Proof.
  intros Hp. apply json_dict_intro; [apply dict_pop_NoDup, server_NoDup|].
  intros k y. destruct (decide (k = "name")) as [->|Hne].
  { by rewrite dict_get_pop_eq by apply server_NoDup. }
  rewrite dict_get_pop_ne by done. unfold server_value.
  cbn [_spec_asjson dict_of].
  intros (name & x & Hin & <- & -> & Hk)%record_entry.
  apply elem_of_cons in Hin as [[= -> ->]|Hin]; [done|].
  by apply (plain_fields_elem (Server_attrs s) name).
Qed.

Hypothesis schemas_json :
  forall t schema, type_as_jsonschema t = Ok schema -> json schema.

Lemma compiled_message_json reg m message :
  plain_message m ->
  compiled_message type_as_jsonschema class_fields reg m = Ok message ->
  json message.
Proof.
  intros Hp. unfold compiled_message.
  destruct (nonempty (Message_name m) ≫= _) as [key|].
  { intros <-%Ok_inj. cbn. split; [apply NoDup_singleton|done]. }
  pose proof (message_NoDup class_fields m) as Hnd.
  assert (Hentry : forall k y,
    k <> "payload" ->
    dict_get k (dict_pop "contentType"
                  (dict_of (_spec_asjson (message_value class_fields m))))
    = Some y -> json y).
  { intros k y Hk. destruct (decide (k = "contentType")) as [->|Hne].
    { by rewrite dict_get_pop_eq. }
    rewrite dict_get_pop_ne by done.
    intros [[? _]|?]%message_entry_json; done. }
  destruct (Message_payload m) as [t|] eqn:Ht.
  - destruct (type_as_jsonschema t) as [schema|] eqn:Hs; [|done].
    intros <-%Ok_inj. apply json_dict_intro.
    + by apply dict_set_NoDup, dict_pop_NoDup.
    + intros k y. rewrite dict_get_set. case_decide as Hk.
      * intros [= <-]. by apply (schemas_json t).
      * by apply Hentry.
  - intros <-%Ok_inj. apply json_dict_intro; [by apply dict_pop_NoDup|].
    intros k y. destruct (decide (k = "contentType")) as [->|Hne].
    { by rewrite dict_get_pop_eq. }
    rewrite dict_get_pop_ne by done.
    intros [[_ [? ?]]|?]%message_entry_json; [congruence|done|done].
Qed.

Lemma operation_NoDup o :
  NoDup (dict_of (_spec_asjson (operation_value class_fields o))).*1.
Proof.
  unfold operation_value. cbn [_spec_asjson dict_of].
  apply fields_asjson_NoDup, NoDup_nil_2.
Qed.

Lemma compiled_operation_json reg o operation_dict :
  plain_operation o ->
  compiled_operation type_as_jsonschema class_fields reg o
  = Ok operation_dict ->
  json operation_dict.
Proof.
  intros [Ha Hm]. unfold compiled_operation.
  destruct (Operation_message o) as [m|] eqn:Em; [|done].
  destruct (compiled_message _ _ _ _) as [message|] eqn:Hmsg; [|done].
  intros <-%Ok_inj. apply compiled_message_json in Hmsg; [|done].
  apply json_dict_intro; [apply dict_set_NoDup, operation_NoDup|].
  intros k y. rewrite dict_get_set. case_decide as Hk; [by intros [= <-]|].
  unfold operation_value. cbn [_spec_asjson dict_of].
  intros (name & x & Hin & <- & -> & _)%record_entry.
  apply elem_of_cons in Hin as [[= -> ->]|Hin]; [done|].
  by apply (plain_fields_elem (Operation_attrs o) name).
Qed.

Lemma put_operation_NoDup reg key (o : option (Operation descriptor)) d d' :
  put_operation type_as_jsonschema class_fields reg key o d = Ok d' ->
  NoDup d.*1 -> NoDup d'.*1.
Proof.
  unfold put_operation. destruct o as [o|]; [|by intros <-%Ok_inj].
  destruct (compiled_operation _ _ _ _); [|done].
  intros <-%Ok_inj ?. by apply dict_set_NoDup.
Qed.

Lemma put_operation_json reg key (o : option (Operation descriptor)) d d' y :
  put_operation type_as_jsonschema class_fields reg key o d = Ok d' ->
  from_option plain_operation True o ->
  dict_get key d = None ->
  dict_get key d' = Some y -> is_Some o /\ json y.
Proof.
  unfold put_operation. destruct o as [o|].
  - destruct (compiled_operation _ _ _ _) as [od|] eqn:Hod; [|done].
    intros <-%Ok_inj Hp _. rewrite dict_get_set_eq. intros [= <-].
    split; [done|]. by apply compiled_operation_json in Hod.
  - intros <-%Ok_inj _ ->. done.
Qed.

Lemma compiled_channel_json reg c channel_dict :
  wf_channel c -> plain_channel c ->
  compiled_channel type_as_jsonschema class_fields reg c = Ok channel_dict ->
  json channel_dict.
Proof.
  intros Hwf (Ha & Hs & Hp).
  destruct (channel_gets class_fields c Hwf) as [Hgs Hgp].
  pose proof (channel_NoDup class_fields c) as Hnd.
  unfold compiled_channel.
  destruct (put_operation _ _ _ "subscribe" _ _) as [d1|] eqn:E1; [|done].
  cbn [mbind result_bind].
  destruct (put_operation _ _ _ "publish" _ _) as [d2|] eqn:E2; [|done].
  intros <-%Ok_inj. apply json_dict_intro.
  { eapply put_operation_NoDup; [exact E2|].
    eapply put_operation_NoDup; [exact E1|]. by apply dict_pop_NoDup. }
  intros k y. destruct (decide (k = "publish")) as [->|Hnp].
  { destruct (Channel_publish c) as [o|] eqn:Ho.
    - unfold put_operation in E2.
      destruct (compiled_operation _ _ _ o) as [od|] eqn:Hod; [|done].
      apply Ok_inj in E2 as <-. rewrite dict_get_set_eq. intros [= <-].
      by apply compiled_operation_json in Hod.
    - apply Ok_inj in E2 as <-.
      rewrite (put_operation_get _ _ _ _ _ _ _ _ E1) by done.
      rewrite dict_get_pop_ne by done. by rewrite Hgp. }
  rewrite (put_operation_get _ _ _ _ _ _ _ _ E2) by done.
  destruct (decide (k = "subscribe")) as [->|Hns].
  { destruct (Channel_subscribe c) as [o|] eqn:Ho.
    - unfold put_operation in E1.
      destruct (compiled_operation _ _ _ o) as [od|] eqn:Hod; [|done].
      apply Ok_inj in E1 as <-. rewrite dict_get_set_eq. intros [= <-].
      by apply compiled_operation_json in Hod.
    - apply Ok_inj in E1 as <-.
      rewrite dict_get_pop_ne by done. by rewrite Hgs. }
  rewrite (put_operation_get _ _ _ _ _ _ _ _ E1) by done.
  destruct (decide (k = "name")) as [->|Hnn].
  { by rewrite dict_get_pop_eq. }
  rewrite dict_get_pop_ne by done. unfold channel_value.
  cbn [_spec_asjson dict_of].
  intros (name & x & Hin & <- & -> & _)%record_entry.
  rewrite !elem_of_app, !elem_of_cons, elem_of_nil in Hin.
  destruct Hin as [[[= -> ->]|[[= -> ->]|[[= -> ->]|[]]]]|Hin]; try done.
  by apply (plain_fields_elem (Channel_attrs c) name).
Qed.

Lemma compiled_channels_json reg
    (channels : list (string * Channel descriptor)) channel_dicts :
  Forall (fun kc => wf_channel kc.2) channels ->
  Forall (fun kc => plain_channel kc.2) channels ->
  NoDup channels.*1 ->
  compiled_channels type_as_jsonschema class_fields reg channels
  = Ok channel_dicts ->
  json (VDict channel_dicts).
Proof.
  intros Hwf Hp Hnd Hcds. apply json_dict. split.
  { by rewrite (compiled_channels_keys _ _ _ _ _ Hcds). }
  clear Hnd. revert channel_dicts Hcds Hp.
  induction Hwf as [|[k c] channels Hc _ IH]; intros channel_dicts.
  - intros <-%Ok_inj _. constructor.
  - cbn [compiled_channels].
    destruct (compiled_channel _ _ _ _) as [cd|] eqn:Hcd; [|done].
    cbn [mbind result_bind].
    destruct (compiled_channels _ _ _ _) as [cds|]; [|done].
    intros <-%Ok_inj [Hpc Hp]%Forall_cons.
    constructor; [|by apply IH].
    by apply compiled_channel_json in Hcd.
Qed.

Lemma message_set_payload_json m schema :
  plain_message m -> json schema ->
  json (VDict (dict_set "payload" schema
                 (dict_of (_spec_asjson (message_value class_fields m))))).
Proof.
  intros Hp Hs. apply json_dict_intro.
  { apply dict_set_NoDup, message_NoDup. }
  intros k y. rewrite dict_get_set. case_decide as Hk; [by intros [= <-]|].
  intros [[? _]|?]%message_entry_json; done.
Qed.

Lemma message_without_payload_json m :
  plain_message m -> Message_payload m = None ->
  json (_spec_asjson (message_value class_fields m)).
Proof.
  intros Hp Hnone. rewrite message_asjson.
  apply json_dict_intro; [apply message_NoDup|].
  intros k y [[_ [? ?]]|?]%message_entry_json; [congruence|done|done].
Qed.

Lemma components_entry_json (components : Components descriptor) k y :
  plain_components components -> k <> "messages" ->
  dict_get k
    (dict_of (_spec_asjson (components_value class_fields components)))
  = Some y ->
  json y.
Proof.
  intros (Ha & Hs & _) Hk. unfold components_value.
  cbn [_spec_asjson dict_of].
  intros (name & x & Hin & <- & -> & _)%record_entry.
  rewrite !elem_of_app, !elem_of_cons, elem_of_nil in Hin.
  destruct Hin as [[[= -> ->]|[[= -> ->]|[]]]|Hin]; [done| |].
  - destruct (Components_schemas components) as [schemas|]; [|done].
    by apply asjson_json.
  - by apply (plain_fields_elem (Components_attrs components) name).
Qed.

Lemma components_without_messages_json (components : Components descriptor) :
  plain_components components ->
  Components_messages components = None ->
  json (_spec_asjson (components_value class_fields components)).
Proof.
  intros Hp Hnone.
  change (json (VDict (dict_of (_spec_asjson
                                  (components_value class_fields
                                     components))))).
  apply json_dict_intro.
  { unfold components_value. cbn [_spec_asjson dict_of].
    apply fields_asjson_NoDup, NoDup_nil_2. }
  intros k y. destruct (decide (k = "messages")) as [->|Hk].
  - unfold components_value. cbn [_spec_asjson dict_of].
    intros (name & x & Hin & Hc & -> & _)%record_entry.
    rewrite !elem_of_app, !elem_of_cons, elem_of_nil in Hin.
    destruct Hin as [[[= -> ->]|[[= -> ->]|[]]]|Hin].
    + by rewrite Hnone.
    + by vm_compute in Hc.
    + destruct Hp as (Ha & _).
      by apply (plain_fields_elem (Components_attrs components) name).
  - by apply components_entry_json.
Qed.

Lemma compiled_entries_json (messages : list (string * Message descriptor))
    entries :
  NoDup messages.*1 ->
  Forall (fun km => plain_message km.2) messages ->
  entries.*1 = messages.*1 ->
  (forall k m, (k, m) ∈ messages ->
     match Message_payload m with
     | Some t =>
         exists schema,
           type_as_jsonschema t = Ok schema
           /\ dict_get k entries
              = Some (VDict
                        (dict_set "payload" schema
                           (dict_of (_spec_asjson
                                       (message_value class_fields m)))))
     | None =>
         dict_get k entries
         = Some (_spec_asjson (message_value class_fields m))
     end) ->
  json (VDict entries).
Proof.
  intros Hnd Hp Hkeys Hget. apply json_dict_intro; [by rewrite Hkeys|].
  intros k y Hy.
  assert (k ∈ messages.*1) as Hin.
  { rewrite <- Hkeys. destruct (decide (k ∈ entries.*1)) as [|Hn]; [done|].
    apply dict_get_None in Hn. congruence. }
  apply list_elem_of_fmap_1 in Hin as ([k' m] & -> & Hin). cbn [fst] in *.
  rewrite Forall_forall in Hp. specialize (Hp _ Hin). cbn [snd] in Hp.
  specialize (Hget k' m Hin).
  destruct (Message_payload m) as [t|] eqn:Ht.
  - destruct Hget as (schema & Hs & Hget). rewrite Hget in Hy.
    injection Hy as <-.
    apply message_set_payload_json; [done|]. by apply (schemas_json t).
  - rewrite Hget in Hy. injection Hy as <-.
    by apply message_without_payload_json.
Qed.

Lemma compiled_servers_json (servers : list (string * Server descriptor)) :
  NoDup servers.*1 ->
  Forall (fun ks => plain_fields (Server_attrs ks.2)) servers ->
  json (VDict (compiled_servers servers)).
Proof.
  intros Hnd Hp. apply json_dict. unfold compiled_servers. split.
  - by rewrite <- list_fmap_compose.
  - apply Forall_fmap. eapply Forall_impl; [exact Hp|].
    intros [k s] Hs. by apply server_json.
Qed.

Lemma compiled_components_json spec d components :
  wf_spec spec -> plain_spec spec ->
  Specification_components spec = Some components ->
  (exists reg0 reg,
     messages_loop type_as_jsonschema (spec_messages_dict spec)
       (_spec_asjson (spec_value class_fields spec)) reg0
     = Ok (VDict d, reg)) ->
  forall y, dict_get "components" d = Some y -> json y.
Proof.
  intros Hwf (_ & _ & _ & Hpc) Ec (reg0 & reg & Hloop) y.
  rewrite Ec in Hpc. cbn [from_option] in Hpc.
  rewrite spec_asjson_dict in Hloop. unfold spec_messages_dict in Hloop.
  rewrite Ec in Hloop.
  destruct (Components_messages components) as [messages|] eqn:Em.
  - destruct (spec_components_gets class_fields _ _ _ Hwf Ec Em)
      as (Hc & Hm & Hnd).
    eapply messages_loop_entries in Hloop; [|done..].
    destruct Hloop as (d' & c' & ms' & [= <-] & -> & Hm' & Hkc & Hfc & Hkm
                       & _ & Hin).
    intros [= <-]. apply json_dict_intro.
    { rewrite Hkc. unfold components_value. cbn [_spec_asjson dict_of].
      apply fields_asjson_NoDup, NoDup_nil_2. }
    intros k y. destruct (decide (k = "messages")) as [->|Hk].
    + rewrite Hm'. intros [= <-].
      apply (compiled_entries_json messages); [done| | |].
      * destruct Hpc as (_ & _ & Hpm). by rewrite Em in Hpm.
      * rewrite Hkm. by rewrite <- list_fmap_compose.
      * intros k m Hkm'. specialize (Hin k m Hkm').
        assert (dict_get k
                  ((fun kv =>
                      (kv.1, _spec_asjson (message_value class_fields kv.2)))
                     <$> messages)
                = Some (_spec_asjson (message_value class_fields m))) as Hg.
        { apply dict_get_elem.
          - by rewrite <- list_fmap_compose.
          - by apply (list_elem_of_fmap_2
              (fun kv =>
                 (kv.1, _spec_asjson (message_value class_fields kv.2)))
              _ (k, m)). }
        rewrite Hg in Hin. destruct (Message_payload m) as [t|]; [|done].
        destruct Hin as (schema & entry & Ht & [= <-] & Hk).
        by exists schema.
    + rewrite Hfc by done. by apply components_entry_json.
  - cbn [messages_loop] in Hloop.
    assert (VDict (dict_of (_spec_asjson (spec_value class_fields spec)))
            = VDict d) as <-%VDict_inj by congruence.
    destruct Hwf as (Hd & _). unfold spec_value. cbn [_spec_asjson dict_of].
    erewrite (record_get _ _ _ "components");
      [|reflexivity|exact Hd|right; right; left].
    rewrite Ec. cbn [optional]. intros [= <-].
    by apply components_without_messages_json.
Qed.

(** X18 (JSON data).  When the dicts of the specification are keyed by
    strings, the specification holds no class apart from its payloads and
    the schema generator returns JSON data, the compiled document is JSON
    data: mappings with one entry per key, sequences and scalars, with no
    class, dataclass, enumeration member or set left; the payload classes
    are all replaced by their schemas or dropped with the message they
    belong to.  The keys of a dict are not serialized, so that the premise
    on them is needed. *)
Theorem spec_asjson_json spec doc :
  wf_spec spec -> plain_spec spec ->
  spec_asjson type_as_jsonschema class_fields spec = Ok doc ->
  json doc.
Proof.
  intros Hwf Hplain Hdoc. rewrite spec_asjson_eq in Hdoc by done.
  destruct (messages_loop _ _ _ _) as [[json_spec reg]|] eqn:Hloop; [|done].
  cbn [mbind result_bind] in Hdoc.
  destruct (compiled_channels _ _ _ _) as [cds|] eqn:Hcds; [|done].
  apply Ok_inj in Hdoc as <-.
  pose proof Hloop as Hframe. rewrite spec_asjson_dict in Hframe.
  apply messages_loop_frame in Hframe as (d1 & -> & Hk1 & Hd1).
  cbn [dict_of]. apply json_dict_intro.
  { do 2 apply dict_set_NoDup. rewrite Hk1. unfold spec_value.
    cbn [_spec_asjson dict_of]. apply fields_asjson_NoDup, NoDup_nil_2. }
  pose proof Hwf as (Hdk & Hns & Hnc & Hwc & _).
  pose proof Hplain as (Hpa & Hps & Hpch & _).
  intros k y. rewrite dict_get_set. case_decide as Hc.
  { intros [= <-]. by apply (compiled_channels_json reg
                               (Specification_channels spec)). }
  rewrite dict_get_set. case_decide as Hs.
  { intros [= <-]. by apply compiled_servers_json. }
  destruct (decide (k = "components")) as [->|Hcomp].
  - destruct (Specification_components spec) as [components|] eqn:Ec.
    + apply (compiled_components_json spec d1 components); [done..|].
      by exists ∅, reg.
    + unfold spec_messages_dict in Hloop. rewrite Ec in Hloop.
      rewrite spec_asjson_dict in Hloop. cbn [messages_loop] in Hloop.
      assert (VDict (dict_of (_spec_asjson (spec_value class_fields spec)))
              = VDict d1) as <-%VDict_inj by congruence.
      unfold spec_value. cbn [_spec_asjson dict_of].
      erewrite (record_get _ _ _ "components");
        [|reflexivity|exact Hdk|right; right; left].
      by rewrite Ec.
  - rewrite Hd1 by done. unfold spec_value. cbn [_spec_asjson dict_of].
    intros (name & x & Hin & Hcamel & -> & _)%record_entry.
    rewrite !elem_of_app, !elem_of_cons, elem_of_nil in Hin.
    destruct Hin as [[[= -> ->]|[[= -> ->]|[[= -> ->]|[]]]]|Hin].
    + by vm_compute in Hcamel.
    + by vm_compute in Hcamel.
    + by vm_compute in Hcamel.
    + by apply (plain_fields_elem (Specification_attrs spec) name).
Qed.

End CompilerJson.

Lemma spec_asjson_json_witness :
  plain_spec Sample.orders /\ json Sample.orders_document.
Proof.
  assert (Hplain : plain_spec Sample.orders).
  { repeat first [split | apply Forall_cons_2 | apply Forall_nil_2];
      try done; compute_done. }
  split; [done|].
  apply (spec_asjson_json Sample.schema Sample.dataclass) with Sample.orders;
    [|solve_wf|done|by vm_compute].
  intros t schema. unfold Sample.schema. case_decide; [done|].
  intros <-%Ok_inj. cbn. repeat split. compute_done.
Defined.

(** ** The internal names *)

Section InternalNames.
Context {descriptor : Type}.
Variable type_as_jsonschema : descriptor -> result (value descriptor).
Variable class_fields : descriptor -> option (list (string * value descriptor)).
Implicit Types (d fields : list (string * value descriptor)).
Implicit Types (c : Channel descriptor) (spec : Specification descriptor).

Lemma dict_pop_fresh d k : k ∉ d.*1 -> dict_pop k d = d.
Proof.
  induction d as [|[k' v'] d IH]; csimpl; [done|].
  intros [? ?]%not_elem_of_cons. rewrite decide_False by done.
  by rewrite IH.
Qed.

Lemma kept_fields_keys fields k :
  k ∈ (kept_fields _spec_asjson fields).*1 -> k ∈ document_keys fields.
Proof.
  unfold kept_fields, document_keys.
  induction fields as [|[name x] fields IH]; csimpl; [done|].
  destruct (kept (_spec_asjson x)); csimpl.
  - intros [->|?]%elem_of_cons; [left|right; auto].
  - intros ?. right. auto.
Qed.

(** A serialized record without the entry of its first field. *)
Lemma record_pop_first name x fields :
  NoDup (document_keys ((name, x) :: fields)) ->
  dict_pop (as_camel_case name)
    (fields_asjson _spec_asjson ((name, x) :: fields) [])
  = kept_fields _spec_asjson fields.
Proof.
  intros Hnd. rewrite fields_asjson_kept by done.
  unfold kept_fields at 1. csimpl. fold (kept_fields _spec_asjson fields).
  apply NoDup_cons in Hnd as [Hk _].
  destruct (kept (_spec_asjson x)); csimpl.
  - by rewrite decide_True.
  - apply dict_pop_fresh. intros Hin. by apply Hk, kept_fields_keys.
Qed.

Lemma server_stripped (s : Server descriptor) :
  distinct_keys ["name"] (Server_attrs s) ->
  dict_pop "name" (dict_of (_spec_asjson (server_value s)))
  = kept_fields _spec_asjson (Server_attrs s).
Proof.
  intros Hd. unfold server_value. cbn [_spec_asjson dict_of].
  by apply (record_pop_first "name").
Qed.

Lemma channel_stripped c :
  wf_channel c ->
  dict_pop "name" (dict_of (_spec_asjson (channel_value class_fields c)))
  = kept_fields _spec_asjson
      ([("subscribe",
         optional (operation_value class_fields) (Channel_subscribe c));
        ("publish",
         optional (operation_value class_fields) (Channel_publish c))]
       ++ Channel_attrs c).
Proof.
  intros [Hd _]. unfold channel_value. cbn [_spec_asjson dict_of].
  by apply (record_pop_first "name").
Qed.

Lemma compiled_servers_unnamed (servers : list (string * Server descriptor)) :
  Forall (fun ks => distinct_keys ["name"] (Server_attrs ks.2)) servers ->
  compiled_servers ((fun ks => (ks.1, unnamed_server ks.2)) <$> servers)
  = compiled_servers servers.
Proof.
  unfold compiled_servers. induction 1 as [|[k s] servers Hs _ IH]; [done|].
  rewrite !fmap_cons. cbn [fst snd]. f_equal; [|exact IH].
  do 2 f_equal. by rewrite !server_stripped.
Qed.

Lemma compiled_channel_unnamed reg c :
  wf_channel c ->
  compiled_channel type_as_jsonschema class_fields reg (unnamed_channel c)
  = compiled_channel type_as_jsonschema class_fields reg c.
Proof.
  intros Hwf. unfold compiled_channel.
  rewrite (channel_stripped c) by done.
  rewrite (channel_stripped (unnamed_channel c)) by done. done.
Qed.

Lemma compiled_channels_unnamed reg
    (channels : list (string * Channel descriptor)) :
  Forall (fun kc => wf_channel kc.2) channels ->
  compiled_channels type_as_jsonschema class_fields reg
    ((fun kc => (kc.1, unnamed_channel kc.2)) <$> channels)
  = compiled_channels type_as_jsonschema class_fields reg channels.
Proof.
  induction 1 as [|[k c] channels Hc _ IH]; [done|].
  rewrite fmap_cons. cbn [compiled_channels fst snd].
  rewrite compiled_channel_unnamed by done. by rewrite IH.
Qed.

Lemma wf_unnamed spec : wf_spec spec -> wf_spec (unnamed spec).
Proof.
  intros (Hd & Hs & Hc & Hwc & Hcomp). unfold wf_spec, unnamed.
  cbn [Specification_attrs Specification_servers Specification_channels
       Specification_components].
  split_and!; [done| | | |done].
  - by rewrite <- list_fmap_compose.
  - by rewrite <- list_fmap_compose.
  - apply Forall_fmap. eapply Forall_impl; [exact Hwc|]. by intros [k c].
Qed.

Lemma spec_baseline spec :
  wf_spec spec ->
  _spec_asjson (spec_value class_fields spec)
  = VDict
      (("servers",
        _spec_asjson (mapping server_value (Specification_servers spec)))
       :: ("channels",
           _spec_asjson
             (mapping (channel_value class_fields)
                (Specification_channels spec)))
       :: kept_fields _spec_asjson
            (("components",
              optional (components_value class_fields)
                (Specification_components spec))
             :: Specification_attrs spec)).
Proof.
  intros (Hd & _). unfold spec_value. cbn [_spec_asjson].
  by rewrite fields_asjson_kept.
Qed.

Lemma set_component_payload_prefix (e1 e2 : string * value descriptor) d
    message_name schema :
  e1.1 <> "components" -> e2.1 <> "components" ->
  set_component_payload (VDict (e1 :: e2 :: d)) message_name schema
  = json_spec ← set_component_payload (VDict d) message_name schema;
    Ok (VDict (e1 :: e2 :: dict_of json_spec)).
Proof.
  destruct e1 as [k1 x1], e2 as [k2 x2]. cbn [fst]. intros H1 H2.
  unfold set_component_payload. cbn [getitem dict_get].
  rewrite !decide_False by done.
  destruct (dict_get "components" d) as [components|]; [|done].
  cbn [mbind result_bind].
  destruct (getitem components "messages") as [messages|]; [|done].
  cbn [mbind result_bind].
  destruct (getitem messages message_name) as [message|]; [|done].
  cbn [mbind result_bind].
  destruct (setitem message "payload" schema) as [message'|]; [|done].
  cbn [mbind result_bind].
  destruct (setitem messages message_name message') as [messages'|]; [|done].
  cbn [mbind result_bind].
  destruct (setitem components "messages" messages') as [components'|];
    [|done].
  cbn [mbind result_bind setitem dict_set dict_of].
  by rewrite !decide_False by done.
Qed.

Lemma messages_loop_prefix (e1 e2 : string * value descriptor) d
    (items : list (string * Message descriptor)) reg :
  e1.1 <> "components" -> e2.1 <> "components" ->
  messages_loop type_as_jsonschema items (VDict (e1 :: e2 :: d)) reg
  = r ← messages_loop type_as_jsonschema items (VDict d) reg;
    Ok (VDict (e1 :: e2 :: dict_of r.1), r.2).
Proof.
  intros H1 H2. revert d reg.
  induction items as [|[k m] items IH]; intros d reg; [done|].
  cbn [messages_loop].
  destruct (Message_payload m) as [t|]; [|by apply IH].
  destruct (type_as_jsonschema t) as [schema|]; [|done].
  cbn [mbind result_bind].
  rewrite set_component_payload_prefix by done.
  destruct (set_component_payload (VDict d) k schema) as [json_spec|] eqn:E;
    [|done].
  cbn [mbind result_bind].
  apply set_component_payload_inv in E as [components ->].
  cbn [dict_of]. apply IH.
Qed.

Lemma spec_asjson_unnamed spec :
  wf_spec spec -> wf_servers spec ->
  spec_asjson type_as_jsonschema class_fields (unnamed spec)
  = spec_asjson type_as_jsonschema class_fields spec.
Proof.
  intros Hwf Hws. pose proof (wf_unnamed spec Hwf) as Hwf'.
  rewrite !spec_asjson_eq by done.
  rewrite !spec_baseline by done.
  change (spec_messages_dict (unnamed spec)) with (spec_messages_dict spec).
  change (Specification_components (unnamed spec))
    with (Specification_components spec).
  change (Specification_attrs (unnamed spec))
    with (Specification_attrs spec).
  rewrite !messages_loop_prefix by done.
  destruct (messages_loop _ _ (VDict (kept_fields _ _)) _)
    as [[json_spec reg]|]; [|done].
  cbn [mbind result_bind fst snd dict_of].
  change (Specification_channels (unnamed spec))
    with ((fun kc => (kc.1, unnamed_channel kc.2))
            <$> Specification_channels spec).
  change (Specification_servers (unnamed spec))
    with ((fun ks => (ks.1, unnamed_server ks.2))
            <$> Specification_servers spec).
  rewrite compiled_channels_unnamed by apply Hwf.
  rewrite compiled_servers_unnamed by done.
  by destruct (compiled_channels _ _ _ _) as [cds|].
Qed.

(** X19 (internal names).  The internal names of servers and channels do
    not enter the result: two well-formed specifications that differ in
    these names only compile to the same document, or raise the same
    exception. *)
Theorem internal_names_unused spec spec' :
  wf_spec spec -> wf_servers spec ->
  wf_spec spec' -> wf_servers spec' ->
  unnamed spec = unnamed spec' ->
  spec_asjson type_as_jsonschema class_fields spec
  = spec_asjson type_as_jsonschema class_fields spec'.
Proof.
  intros Hwf Hws Hwf' Hws' E.
  rewrite <- (spec_asjson_unnamed spec), <- (spec_asjson_unnamed spec')
    by done.
  by rewrite E.
Qed.

End InternalNames.

Lemma internal_names_unused_witness :
  Sample.compile Sample.orders = Sample.compile Cases.orders_renamed.
Proof.
  assert (Hs : wf_servers Sample.orders) by solve_wf.
  assert (Hs' : wf_servers Cases.orders_renamed) by solve_wf.
  apply (internal_names_unused Sample.schema Sample.dataclass
           Sample.orders Cases.orders_renamed);
    [solve_wf|done|solve_wf|done|done].
Defined.
